(** * cors_server.py and launch.py: a shallow embedding and its properties

    The two scripts are small HTTP servers built on Python's [http.server].
    The embedding follows the scripts method by method.  What they call but
    do not define is modelled at the level the scripts observe it:

    - a Python [str] is a list of code points, a [bytes] a list of bytes;
    - [os.environ] is a finite map from names to values;
    - the outcome of [open] followed by [json.load] on the local
      configuration file is an input (the parsed document or the exception
      raised);
    - the handler API of [BaseHTTPRequestHandler] ([send_response],
      [send_header], [end_headers], [wfile.write]) is embedded, and the
      inherited request methods are programs over that API, received as
      parameters, whose [end_headers] calls dispatch to the override;
    - a request is an HTTP/1.x request that [parse_request] has accepted,
      the wire protocol of the specification (section 6);
    - the outcome of [sock.bind] on a valid port number is an input. *)

From Stdlib Require Import ZArith NArith List String Ascii Bool Lia DecimalString.
From Stdlib.Strings Require Import Byte.
From stdpp Require Import base decidable option gmap strings.
Import ListNotations.

Local Open Scope Z_scope.
Set Warnings "-register-all".

(** ** Python values *)

Module Py.

(** A [str] is a sequence of Unicode code points. *)
Abbreviation str := (list N).

Abbreviation bytes := (list byte).

(** A source literal ['...'] as a [str] and [b'...'] as [bytes]. *)
Definition lit (s : string) : str := map N_of_ascii (list_ascii_of_string s).

Definition blit (s : string) : bytes := list_byte_of_string s.

Definition dquote : N := 34%N.
Definition backslash : N := 92%N.

(** Exceptions the scripts can meet; each one carries [str(e)]. *)
Inductive exn :=
| OSError (msg : str)
| ValueError (msg : str)          (* json.JSONDecodeError, UnicodeDecodeError *)
| AttributeError (msg : str)
| UnicodeEncodeError (msg : str)
| OverflowError (msg : str)
| RuntimeError (msg : str).

Definition exn_str (e : exn) : str :=
  match e with
  | OSError m | ValueError m | AttributeError m
  | UnicodeEncodeError m | OverflowError m | RuntimeError m => m
  end.

(** [isinstance(e, OSError)], the test of [except OSError]. *)
Definition is_OSError (e : exn) : bool :=
  match e with OSError _ => true | _ => false end.

Inductive result (A : Type) :=
| Ok (a : A)
| Raise (e : exn).
Arguments Ok {A} a.
Arguments Raise {A} e.

Definition bind {A B} (r : result A) (k : A -> result B) : result B :=
  match r with Ok a => k a | Raise e => Raise e end.

(** The values [json.load] can build.  A float is kept as the two things
    the server observes of it: whether it is non-zero (its truth value)
    and the text [json.dumps] prints for it. *)
Inductive value :=
| None_
| Bool (b : bool)
| Int (z : Z)
| Float (nonzero : bool) (repr : string)
| Str (s : str)
| List (l : list value)
| Dict (d : list (str * value)).

(** Truth value of an object, as tested by [if x:] and [if not x:]. *)
Definition truthy (v : value) : bool :=
  match v with
  | None_ => false
  | Bool b => b
  | Int z => negb (z =? 0)
  | Float nz _ => nz
  | Str s => match s with [] => false | _ => true end
  | List l => match l with [] => false | _ => true end
  | Dict d => match d with [] => false | _ => true end
  end.

(** [d.get(k)] on the item list of a dict. *)
Fixpoint dict_get (d : list (str * value)) (k : str) : value :=
  match d with
  | [] => None_
  | (k', v) :: d' => if decide (k' = k) then v else dict_get d' k
  end.

(** [o.get(k)]: only a dict has the method. *)
Definition get (o : value) (k : str) : result value :=
  match o with
  | Dict d => Ok (dict_get d k)
  | _ => Raise (AttributeError (lit "object has no attribute 'get'"))
  end.

(** [s.encode('utf-8')]: surrogates cannot be encoded. *)
Definition byte_of_N (n : N) : byte :=
  match Byte.of_N n with Some b => b | None => "000"%byte end.

Definition utf8_char (c : N) : result bytes :=
  if (c <? 0x80)%N then Ok [byte_of_N c]
  else if (c <? 0x800)%N then
    Ok [byte_of_N (N.lor 0xC0 (N.shiftr c 6));
        byte_of_N (N.lor 0x80 (N.land c 0x3F))]
  else if (0xD800 <=? c)%N && (c <=? 0xDFFF)%N then
    Raise (UnicodeEncodeError (lit "surrogates not allowed"))
  else if (c <? 0x10000)%N then
    Ok [byte_of_N (N.lor 0xE0 (N.shiftr c 12));
        byte_of_N (N.lor 0x80 (N.land (N.shiftr c 6) 0x3F));
        byte_of_N (N.lor 0x80 (N.land c 0x3F))]
  else
    Ok [byte_of_N (N.lor 0xF0 (N.shiftr c 18));
        byte_of_N (N.lor 0x80 (N.land (N.shiftr c 12) 0x3F));
        byte_of_N (N.lor 0x80 (N.land (N.shiftr c 6) 0x3F));
        byte_of_N (N.lor 0x80 (N.land c 0x3F))].

Fixpoint encode_utf8 (s : str) : result bytes :=
  match s with
  | [] => Ok []
  | c :: s' =>
      bind (utf8_char c) (fun b =>
      bind (encode_utf8 s') (fun bs => Ok (b ++ bs)))
  end.

(** [sep.join(parts)]. *)
Fixpoint join (sep : str) (parts : list str) : str :=
  match parts with
  | [] => []
  | [p] => p
  | p :: ps => p ++ sep ++ join sep ps
  end.

End Py.

Import Py.

(** ** json.dumps with its defaults ([ensure_ascii], separators [", "] and [": "]) *)

Module json.

Definition hex_digit (d : N) : N :=
  if (d <? 10)%N then (48 + d)%N else (87 + d)%N.

(** ['\\u{0:04x}'.format(n)] *)
Definition u_escape (n : N) : str :=
  [backslash; 117%N;
   hex_digit (N.land (N.shiftr n 12) 0xF);
   hex_digit (N.land (N.shiftr n 8) 0xF);
   hex_digit (N.land (N.shiftr n 4) 0xF);
   hex_digit (N.land n 0xF)].

(** The replacement of one character in [py_encode_basestring_ascii]:
    the backslash, the quote and everything outside [' '..'~'] are
    escaped; code points above the BMP become a surrogate pair. *)
Definition escape_char (c : N) : str :=
  if (c =? backslash)%N then [backslash; backslash]
  else if (c =? dquote)%N then [backslash; dquote]
  else if (c =? 8)%N then [backslash; 98%N]       (* \b *)
  else if (c =? 12)%N then [backslash; 102%N]     (* \f *)
  else if (c =? 10)%N then [backslash; 110%N]     (* \n *)
  else if (c =? 13)%N then [backslash; 114%N]     (* \r *)
  else if (c =? 9)%N then [backslash; 116%N]      (* \t *)
  else if (32 <=? c)%N && (c <=? 126)%N then [c]
  else if (c <? 0x10000)%N then u_escape c
  else
    let n := (c - 0x10000)%N in
    u_escape (N.lor 0xD800 (N.land (N.shiftr n 10) 0x3FF))
    ++ u_escape (N.lor 0xDC00 (N.land n 0x3FF)).

Definition encode_basestring_ascii (s : str) : str :=
  [dquote] ++ flat_map escape_char s ++ [dquote].

(** [int.__repr__] *)
Definition int_repr (z : Z) : str := lit (NilZero.string_of_int (Z.to_int z)).

Fixpoint dumps (o : value) : str :=
  match o with
  | None_ => lit "null"
  | Bool true => lit "true"
  | Bool false => lit "false"
  | Int z => int_repr z
  | Float _ repr => lit repr
  | Str s => encode_basestring_ascii s
  | List l => lit "[" ++ join (lit ", ") (map dumps l) ++ lit "]"
  | Dict d =>
      lit "{"
      ++ join (lit ", ")
           (map (fun kv => encode_basestring_ascii (fst kv) ++ lit ": " ++ dumps (snd kv)) d)
      ++ lit "}"
  end.

End json.

(** ** cors_server.py *)

Module cors_server.

(** *** The handler API inherited from [BaseHTTPRequestHandler]

    Requests are HTTP/1.x requests, already parsed into a method and a
    path.  What the handler writes to the socket is kept structured: the
    header block flushed by [end_headers], then the body writes. *)

Inductive line :=
| StatusLine (code : Z) (message : option string)  (* None: the standard phrase *)
| HeaderLine (keyword value : string).

Inductive chunk :=
| Head (lines : list line)
| Body (data : bytes).

Record handler := {
  encryption_key : value;
  command : str;
  path : str;
  version_string : string;
  date_time_string : string;
  _headers_buffer : list line;
  wfile : list chunk
}.

Definition with_buffer (buf : list line) (self : handler) : handler :=
  {| encryption_key := encryption_key self;
     command := command self;
     path := path self;
     version_string := version_string self;
     date_time_string := date_time_string self;
     _headers_buffer := buf;
     wfile := wfile self |}.

Definition with_wfile (w : list chunk) (self : handler) : handler :=
  {| encryption_key := encryption_key self;
     command := command self;
     path := path self;
     version_string := version_string self;
     date_time_string := date_time_string self;
     _headers_buffer := _headers_buffer self;
     wfile := w |}.

Definition send_header (keyword value : string) (self : handler) : handler :=
  with_buffer (_headers_buffer self ++ [HeaderLine keyword value]) self.

(** [send_response(code, message=None)]: the status line, then the
    [Server] and [Date] headers (the access log line is left out). *)
Definition send_response (code : Z) (message : option string) (self : handler) : handler :=
  let self := with_buffer (_headers_buffer self ++ [StatusLine code message]) self in
  let self := send_header "Server" (version_string self) self in
  send_header "Date" (date_time_string self) self.

(** [BaseHTTPRequestHandler.end_headers]: the blank line, then the
    buffered block is flushed to [wfile] and the buffer emptied. *)
Definition super_end_headers (self : handler) : handler :=
  let self := with_wfile (wfile self ++ [Head (_headers_buffer self)]) self in
  with_buffer [] self.

Definition wfile_write (data : bytes) (self : handler) : handler :=
  with_wfile (wfile self ++ [Body data]) self.

(** An inherited method ([SimpleHTTPRequestHandler.do_GET], [do_HEAD],
    [send_error]) is a sequence of calls on [self]. *)
Inductive call :=
| SendResponse (code : Z) (message : option string)
| SendHeader (keyword value : string)
| EndHeaders
| Write (data : bytes).

(** *** What the handler reads outside itself *)

(** [local_config.json] next to the script: absent, or present with the
    outcome of [open] and [json.load] on it. *)
Inductive config_file :=
| Missing
| Present (load : result value).

Inductive io :=
| EnvironGet (name : string)
| PathExists (name : string)
| OpenLoad (name : string)
| Print (text : str).

(** *** class CORSRequestHandler(SimpleHTTPRequestHandler) *)

Definition VITE_ENCRYPTION_KEY : string := "VITE_ENCRYPTION_KEY".
Definition local_config_json : string := "local_config.json".

(** Lines 9-22 of [__init__]: the value of [self.encryption_key], with
    the reads and prints made on the way. *)
Definition init_encryption_key
    (environ : gmap string str) (config : config_file) : value * list io :=
  let encryption_key := from_option Str None_ (environ !! VITE_ENCRYPTION_KEY) in
  let log := [EnvironGet VITE_ENCRYPTION_KEY] in
  if negb (truthy encryption_key) then
    match config with
    | Present load =>
        let log := log ++ [PathExists local_config_json; OpenLoad local_config_json] in
        match bind load (fun config => get config (lit VITE_ENCRYPTION_KEY)) with
        | Ok v => (v, log)
        | Raise e =>
            (None_, log ++ [Print (lit "Error loading local config: " ++ exn_str e)])
        end
    | Missing => (None_, log ++ [PathExists local_config_json])
    end
  else (encryption_key, log).

Definition end_headers (self : handler) : handler :=
  let self := send_header "Access-Control-Allow-Origin" "*" self in
  let self := send_header "Access-Control-Allow-Methods" "GET, POST, OPTIONS" self in
  let self := send_header "Access-Control-Allow-Headers" "Origin, Content-Type, Accept, Range" self in
  let self := send_header "Cross-Origin-Opener-Policy" "same-origin" self in
  let self := send_header "Cross-Origin-Embedder-Policy" "require-corp" self in
  super_end_headers self.

(** Inherited code runs on an instance of the subclass: its
    [self.end_headers()] is the override above. *)
Definition run_call (c : call) (self : handler) : handler :=
  match c with
  | SendResponse code message => send_response code message self
  | SendHeader keyword value => send_header keyword value self
  | EndHeaders => end_headers self
  | Write data => wfile_write data self
  end.

Definition run (p : list call) (self : handler) : handler :=
  fold_left (fun self c => run_call c self) p self.

Definition do_OPTIONS (self : handler) : handler :=
  let self := send_response 200 (Some "ok"%string) self in
  end_headers self.

Section Inherited.

(** The directory served, and the inherited methods as programs. *)
Variable tree : Type.
Variable SimpleHTTPRequestHandler_do_GET : tree -> str -> list call.
Variable SimpleHTTPRequestHandler_do_HEAD : tree -> str -> list call.
Variable send_error_501 : str -> list call.

Definition do_GET (cwd : tree) (self : handler) : result handler :=
  if decide (path self = lit "/api/encryption-key") then
    if truthy (encryption_key self) then
      let self := send_response 200 None self in
      let self := send_header "Content-Type" "application/json" self in
      let self := end_headers self in
      bind (encode_utf8 (json.dumps (Dict [(lit "key", encryption_key self)])))
        (fun data => Ok (wfile_write data self))
    else
      let self := send_response 404 None self in
      let self := end_headers self in
      Ok (wfile_write (blit "Encryption key not configured") self)
  else
    Ok (run (SimpleHTTPRequestHandler_do_GET cwd (path self)) self).

(** [handle_one_request]: the method named ['do_' + command] when the
    class has one, [send_error(501)] otherwise. *)
Definition handle_one_request (cwd : tree) (self : handler) : result handler :=
  if decide (command self = lit "OPTIONS") then Ok (do_OPTIONS self)
  else if decide (command self = lit "GET") then do_GET cwd self
  else if decide (command self = lit "HEAD") then
    Ok (run (SimpleHTTPRequestHandler_do_HEAD cwd (path self)) self)
  else Ok (run (send_error_501 (command self)) self).

(** One accepted connection: what the handler sees when the server
    builds it. *)
Record connection := {
  config : config_file;
  cwd : tree;
  now : string;
  request_command : str;
  request_path : str
}.

Variable server_version : string.

(** [__init__] resolves the key, then [super().__init__] handles the
    request. *)
Definition __init__ (environ : gmap string str) (conn : connection)
    : result handler * list io :=
  let (key, log) := init_encryption_key environ (config conn) in
  let self :=
    {| encryption_key := key;
       command := request_command conn;
       path := request_path conn;
       version_string := server_version;
       date_time_string := now conn;
       _headers_buffer := [];
       wfile := [] |} in
  (handle_one_request (cwd conn) self, log).

(** [HTTPServer.serve_forever]: one handler instance per connection,
    one connection at a time. *)
Definition serve_forever (environ : gmap string str) (conns : list connection)
    : list (result handler * list io) :=
  map (__init__ environ) conns.

(** The [__main__] block: the start-up messages, the bind of port
    8000, then the serving loop. *)
Definition __main__ (environ : gmap string str) (config_at_start : config_file)
    (port_free : bool) (conns : list connection)
    : list io * result (list (result handler * list io)) :=
  let log :=
    [Print (lit "Serving HTTP with CORS at http://127.0.0.1:8000/ (Press CTRL+C to quit)");
     EnvironGet VITE_ENCRYPTION_KEY] in
  let log :=
    if negb (truthy (from_option Str None_ (environ !! VITE_ENCRYPTION_KEY))) then
      match config_at_start with
      | Present _ =>
          log ++ [PathExists local_config_json;
                  Print (lit "Using local config for VITE_ENCRYPTION_KEY")]
      | Missing =>
          log ++ [PathExists local_config_json;
                  Print (lit "Warning: VITE_ENCRYPTION_KEY not set. Create local_config.json or set environment variable.")]
      end
    else log in
  if port_free then (log, Ok (serve_forever environ conns))
  else (log, Raise (OSError (lit "Address already in use"))).

End Inherited.

Arguments config {tree} _.
Arguments cwd {tree} _.
Arguments now {tree} _.
Arguments request_command {tree} _.
Arguments request_path {tree} _.

(** *** Reading a response off the wire *)

Definition heads (w : list chunk) : list (list line) :=
  flat_map (fun c => match c with Head l => [l] | Body _ => [] end) w.

Definition status (w : list chunk) : option Z :=
  match heads w with
  | (StatusLine code _ :: _) :: _ => Some code
  | _ => None
  end.

(** All values sent for one header name. *)
Definition header (keyword : string) (w : list chunk) : list string :=
  flat_map (fun l => match l with
                     | HeaderLine k v => if decide (k = keyword) then [v] else []
                     | StatusLine _ _ => []
                     end) (concat (heads w)).

Definition body (w : list chunk) : bytes :=
  flat_map (fun c => match c with Head _ => [] | Body b => b end) w.

End cors_server.

(** ** launch.py *)

Module launch.

(** [range(start, stop)] *)
Definition range (start stop : Z) : list Z :=
  map (fun i => start + Z.of_nat i) (seq 0 (Z.to_nat (stop - start))).

(** [sock.bind(('localhost', port))] on a fresh TCP socket.  A port
    number outside 0..65535 is rejected with [OverflowError] before the
    system is asked; otherwise the system accepts the bind or refuses it
    with an [OSError] (address in use, permission denied). *)
Definition sock_bind (refused : Z -> bool) (port : Z) : result unit :=
  if (port <? 0) || (65535 <? port) then
    Raise (OverflowError (lit "bind(): port must be 0-65535."))
  else if refused port then
    Raise (OSError (lit "[Errno 98] Address already in use"))
  else Ok tt.

(** The [for] loop of [find_free_port]: [Some r] when the loop is left by
    [return] or by an exception that [except OSError] does not catch,
    [None] when it runs to its end. *)
Fixpoint find_free_port_loop (refused : Z -> bool) (ports : list Z)
    : option (result Z) :=
  match ports with
  | [] => None
  | port :: rest =>
      match sock_bind refused port with
      | Ok _ => Some (Ok port)
      | Raise e =>
          if is_OSError e then find_free_port_loop refused rest
          else Some (Raise e)
      end
  end.

Definition find_free_port (refused : Z -> bool) (start_port max_attempts : Z)
    : result Z :=
  match find_free_port_loop refused (range start_port (start_port + max_attempts)) with
  | Some r => r
  | None =>
      Raise (RuntimeError
               (lit "Could not find a free port between " ++ json.int_repr start_port
                ++ lit " and " ++ json.int_repr (start_port + max_attempts)))
  end.

Definition required_files : list string := ["index.html"; "assets/YBot.fbx"]%string.

Definition cross_mark : str := [0x274C%N].
Definition check_mark : str := [0x2705%N].
Definition robot_face : str := [0x1F916%N].

(** [check_files]: the prints and the returned flag. *)
Definition check_files (exists_ : string -> bool) : list str * bool :=
  let missing_files := List.filter (fun file_path => negb (exists_ file_path)) required_files in
  match missing_files with
  | _ :: _ =>
      ((cross_mark ++ lit " Missing required files:")
         :: map (fun file => lit "   - " ++ lit file) missing_files,
       false)
  | [] => ([check_mark ++ lit " All required files found"], true)
  end.

(** How [main] ends, up to the point where it hands the port to the
    browser thread and to [start_server]. *)
Inductive outcome :=
| Exit (code : Z)
| StartServer (port : Z)
| Uncaught (e : exn).

Definition main (exists_ : string -> bool) (refused : Z -> bool) : list str * outcome :=
  let out := [robot_face ++ lit " YBot Web Test Launcher"; repeat 61%N 30] in
  let (printed, found) := check_files exists_ in
  let out := out ++ printed in
  if negb found then
    (out ++ [cross_mark ++ lit " Cannot start server - missing required files"], Exit 1)
  else
    match find_free_port refused 8000 100 with
    | Ok port => (out, StartServer port)
    | Raise (RuntimeError msg) => (out ++ [cross_mark ++ lit " " ++ msg], Exit 1)
    | Raise e => (out, Uncaught e)
    end.

End launch.

(** * Properties *)

Import cors_server.

(** ** Vocabulary of the statements *)

(** Printable ASCII that [json.dumps] copies unchanged. *)
Definition plain (c : N) : Prop :=
  (32 <= c <= 126)%N /\ c <> dquote /\ c <> backslash.

Definition ascii_printable (c : N) : Prop := (32 <= c <= 126)%N.

(** Code points below the surrogates, which UTF-8 always encodes. *)
Definition encodable (c : N) : Prop := (c < 0xD800)%N.

(** The bytes of the JSON text that maps ["key"] to the string literal with
    the bytes [v] between its quotes. *)
Definition key_body (v : bytes) : bytes :=
  blit "{" ++ [x22] ++ blit "key" ++ [x22] ++ blit ": " ++ [x22] ++ v ++ [x22] ++ blit "}".

Definition key_path : str := lit "/api/encryption-key".

(** The variable is unset, or set to the empty string. *)
Definition env_unset (environ : gmap string str) : Prop :=
  environ !! VITE_ENCRYPTION_KEY = None \/ environ !! VITE_ENCRYPTION_KEY = Some [].

(** A handler that has written nothing yet. *)
Definition fresh (self : handler) : Prop :=
  _headers_buffer self = [] /\ wfile self = [].

(** The handler that [__init__] builds before it handles the request. *)
Definition built {tree : Type} (server_version : string)
    (environ : gmap string str) (conn : connection tree) : handler :=
  {| encryption_key := fst (init_encryption_key environ (config conn));
     command := request_command conn;
     path := request_path conn;
     version_string := server_version;
     date_time_string := now conn;
     _headers_buffer := [];
     wfile := [] |}.

(** The header policy of the specification (section 4.1), in the order
    the server sends it. *)
Definition cors_policy : list line :=
  [HeaderLine "Access-Control-Allow-Origin" "*";
   HeaderLine "Access-Control-Allow-Methods" "GET, POST, OPTIONS";
   HeaderLine "Access-Control-Allow-Headers" "Origin, Content-Type, Accept, Range";
   HeaderLine "Cross-Origin-Opener-Policy" "same-origin";
   HeaderLine "Cross-Origin-Embedder-Policy" "require-corp"].

(** A header block that closes with the five policy lines. *)
Definition ends_with_policy (block : list line) : Prop :=
  exists pre, block = pre ++ cors_policy.



(** The value of a JSON string literal, read from just after its opening
    quote up to its closing quote, as [json.loads] reads it
    ([py_scanstring], strict): the decoded string and the text that
    follows, or [None] for a malformed literal.  Only hexadecimal digits
    are read after [\u]. *)
Module json_text.

Definition hex_value (c : N) : option N :=
  if (48 <=? c)%N && (c <=? 57)%N then Some (c - 48)%N
  else if (97 <=? c)%N && (c <=? 102)%N then Some (c - 87)%N
  else if (65 <=? c)%N && (c <=? 70)%N then Some (c - 55)%N
  else None.

Definition hex4 (a b c d : N) : option N :=
  match hex_value a, hex_value b, hex_value c, hex_value d with
  | Some x, Some y, Some z, Some w => Some (4096 * x + 256 * y + 16 * z + w)%N
  | _, _, _, _ => None
  end.

(** The [BACKSLASH] table of one-letter escapes. *)
Definition backslash_escape (e : N) : option N :=
  if (e =? dquote)%N then Some dquote
  else if (e =? backslash)%N then Some backslash
  else if (e =? 47)%N then Some 47%N
  else if (e =? 98)%N then Some 8%N
  else if (e =? 102)%N then Some 12%N
  else if (e =? 110)%N then Some 10%N
  else if (e =? 114)%N then Some 13%N
  else if (e =? 116)%N then Some 9%N
  else None.

Definition push (c : N) (r : option (str * str)) : option (str * str) :=
  match r with
  | Some (s, rest) => Some (c :: s, rest)
  | None => None
  end.

Fixpoint scanstring (t : str) : option (str * str) :=
  match t with
  | [] => None
  | c :: t1 =>
      if (c =? dquote)%N then Some ([], t1)
      else if (c =? backslash)%N then
        match t1 with
        | [] => None
        | e :: t2 =>
            if (e =? 117)%N then
              match t2 with
              | a :: b :: c' :: d :: t3 =>
                  match hex4 a b c' d with
                  | None => None
                  | Some uni =>
                      if (0xD800 <=? uni)%N && (uni <=? 0xDBFF)%N then
                        match t3 with
                        | b2 :: u2 :: a' :: b' :: c'' :: d' :: t4 =>
                            if (b2 =? backslash)%N && (u2 =? 117)%N then
                              match hex4 a' b' c'' d' with
                              | None => None
                              | Some uni2 =>
                                  if (0xDC00 <=? uni2)%N && (uni2 <=? 0xDFFF)%N then
                                    push (0x10000
                                          + N.lor (N.shiftl (uni - 0xD800) 10)
                                                  (uni2 - 0xDC00))%N
                                      (scanstring t4)
                                  else push uni (scanstring t3)
                              end
                            else push uni (scanstring t3)
                        | _ => push uni (scanstring t3)
                        end
                      else push uni (scanstring t3)
                  end
              | _ => None
              end
            else
              match backslash_escape e with
              | Some ch => push ch (scanstring t2)
              | None => None
              end
        end
      else if (c <? 0x20)%N then None
      else push c (scanstring t1)
  end.

End json_text.

(** Unicode scalar values: the code points that are not surrogates. *)
Definition scalar (c : N) : Prop :=
  (c < 0xD800)%N \/ (0xE000 <= c <= 0x10FFFF)%N.

(** ** Sample servers and connections *)

Module sample.

(** An inherited [do_GET] over an empty directory: [send_error(404)]. *)
Definition static_GET (_ : unit) (_ : str) : list call :=
  [SendResponse 404 (Some "File not found"%string);
   SendHeader "Connection" "close";
   SendHeader "Content-Type" "text/html;charset=utf-8";
   EndHeaders;
   Write (blit "<h1>Error response</h1>")].

Definition static_HEAD (_ : unit) (_ : str) : list call :=
  [SendResponse 404 (Some "File not found"%string);
   SendHeader "Connection" "close";
   EndHeaders].

Definition unsupported (_ : str) : list call :=
  [SendResponse 501 (Some "Unsupported method"%string);
   SendHeader "Connection" "close";
   EndHeaders].

Definition version : string := "SimpleHTTP/0.6 Python/3.12.0".

Definition request (method target : string) (file : config_file) : connection unit :=
  {| config := file;
     cwd := tt;
     now := "Tue, 03 Nov 2026 12:00:00 GMT";
     request_command := lit method;
     request_path := lit target |}.

(** A configuration file holding [{"VITE_ENCRYPTION_KEY": "xyz"}]. *)
Definition xyz_file : config_file :=
  Present (Ok (Dict [(lit VITE_ENCRYPTION_KEY, Str (lit "xyz"))])).

(** A configuration file that is not valid JSON. *)
Definition malformed_file : config_file :=
  Present (Raise (ValueError (lit "Expecting value: line 1 column 1 (char 0)"))).

Definition connect := cors_server.__init__ unit static_GET static_HEAD unsupported version.


(** Status and body of an answer, and the reads made to build it. *)
Definition observed (r : result handler * list io) : option Z * bytes * list io :=
  match fst r with
  | Ok self => (status (wfile self), body (wfile self), snd r)
  | Raise _ => (None, [], snd r)
  end.

Definition every_port_refused (_ : Z) : bool := true.

(** The variable set to [abc123], and set to the empty string. *)
Definition env_abc123 : gmap string str := {[ VITE_ENCRYPTION_KEY := lit "abc123" ]}.
Definition env_empty_string : gmap string str := {[ VITE_ENCRYPTION_KEY := [] ]}.

(** A configuration file holding [{"VITE_ENCRYPTION_KEY": ""}]. *)
Definition empty_string_file : config_file :=
  Present (Ok (Dict [(lit VITE_ENCRYPTION_KEY, Str [])])).



End sample.

(** ** launch.py: class CustomHTTPRequestHandler *)

Module text.

(** [hay.startswith(needle)] and [needle in hay] on [str]. *)
Fixpoint starts_with (needle hay : str) : bool :=
  match needle, hay with
  | [], _ => true
  | _ :: _, [] => false
  | n :: needle', h :: hay' => (n =? h)%N && starts_with needle' hay'
  end.

Fixpoint contains (needle hay : str) : bool :=
  starts_with needle hay
  || match hay with
     | [] => false
     | _ :: hay' => contains needle hay'
     end.

End text.

Module CustomHTTPRequestHandler.

(** The instance state the class touches: the header buffer and the
    socket, with the [Server] and [Date] values of [send_response]. *)
Record handler := {
  version_string : string;
  date_time_string : string;
  _headers_buffer : list line;
  wfile : list chunk
}.

Definition send_header (keyword value : string) (self : handler) : handler :=
  {| version_string := version_string self;
     date_time_string := date_time_string self;
     _headers_buffer := _headers_buffer self ++ [HeaderLine keyword value];
     wfile := wfile self |}.

Definition send_response (code : Z) (message : option string) (self : handler) : handler :=
  let self :=
    {| version_string := version_string self;
       date_time_string := date_time_string self;
       _headers_buffer := _headers_buffer self ++ [StatusLine code message];
       wfile := wfile self |} in
  let self := send_header "Server" (version_string self) self in
  send_header "Date" (date_time_string self) self.

Definition super_end_headers (self : handler) : handler :=
  {| version_string := version_string self;
     date_time_string := date_time_string self;
     _headers_buffer := [];
     wfile := wfile self ++ [Head (_headers_buffer self)] |}.

Definition wfile_write (data : bytes) (self : handler) : handler :=
  {| version_string := version_string self;
     date_time_string := date_time_string self;
     _headers_buffer := _headers_buffer self;
     wfile := wfile self ++ [Body data] |}.

Definition end_headers (self : handler) : handler :=
  let self := send_header "Access-Control-Allow-Origin" "*" self in
  let self := send_header "Access-Control-Allow-Methods" "GET, POST, OPTIONS" self in
  let self := send_header "Access-Control-Allow-Headers" "X-Requested-With" self in
  let self := send_header "Cache-Control" "no-cache, no-store, must-revalidate" self in
  let self := send_header "Pragma" "no-cache" self in
  let self := send_header "Expires" "0" self in
  super_end_headers self.

(** Inherited methods run with the override as their [end_headers]. *)
Definition run_call (c : call) (self : handler) : handler :=
  match c with
  | SendResponse code message => send_response code message self
  | SendHeader keyword value => send_header keyword value self
  | EndHeaders => end_headers self
  | Write data => wfile_write data self
  end.

Definition run (p : list call) (self : handler) : handler :=
  fold_left (fun self c => run_call c self) p self.

(** [log_message(format, *args)].  [args_given] is the truth value of
    [args] and [message] the text of [format % args], which the inherited
    [log_message] computes as well.  The result is the text handed to
    [super().log_message], or [None] when the method returns before. *)
Definition log_message (args_given : bool) (message : str) : option str :=
  if args_given
     && (text.contains (lit "GET /") message
         && (text.contains (lit "200") message || text.contains (lit "304") message))
  then None
  else Some message.

(** The text [log_request(code)] formats, as [send_response] calls it:
    ['"%s" %s %s' % (requestline, str(code), '-')]. *)
Definition log_request_message (requestline : str) (code : Z) : str :=
  [dquote] ++ requestline ++ [dquote] ++ lit " " ++ json.int_repr code ++ lit " -".

(** [log_request(code)]: what reaches the inherited [log_message]. *)
Definition log_request (requestline : str) (code : Z) : option str :=
  log_message true (log_request_message requestline code).

End CustomHTTPRequestHandler.

(** ** Vocabulary of the further properties *)

(** The six header lines of the launcher's [end_headers], in order. *)
Definition launcher_policy : list line :=
  [HeaderLine "Access-Control-Allow-Origin" "*";
   HeaderLine "Access-Control-Allow-Methods" "GET, POST, OPTIONS";
   HeaderLine "Access-Control-Allow-Headers" "X-Requested-With";
   HeaderLine "Cache-Control" "no-cache, no-store, must-revalidate";
   HeaderLine "Pragma" "no-cache";
   HeaderLine "Expires" "0"].

(** [needle] occurs in [hay]. *)
Definition occurs_in (needle hay : str) : Prop :=
  exists before after, hay = before ++ needle ++ after.



(** The request is the one the key endpoint answers. *)
Definition asks_for_key {tree : Type} (conn : connection tree) : Prop :=
  request_command conn = lit "GET" /\ request_path conn = key_path.

(** Every port of the range is a port number that the system refuses. *)
Definition all_refused (refused : Z -> bool) (start stop : Z) : Prop :=
  forall q, start <= q < stop -> 0 <= q <= 65535 /\ refused q = true.


(** A byte of printable ASCII. *)
Definition printable_byte (b : byte) : Prop := (32 <= Byte.to_N b <= 126)%N.

(** A header block that closes with the launcher's six lines. *)
Definition ends_with_launcher_policy (block : list line) : Prop :=
  exists pre, block = pre ++ launcher_policy.

(** A character of a decimal numeral: a digit or the minus sign. *)
Definition numeral_char (c : N) : Prop := c = 45%N \/ (48 <= c <= 57)%N.

(** ** Further sample data *)

Module examples.


(** A configuration file holding [{"OTHER": "x"}]. *)
Definition other_field_file : config_file :=
  Present (Ok (Dict [(lit "OTHER", Str (lit "x"))])).

(** The variable set to [xyz]. *)
Definition env_xyz : gmap string str := {[ VITE_ENCRYPTION_KEY := lit "xyz" ]}.

(** A launcher handler that has written nothing yet. *)
Definition launcher_handler : CustomHTTPRequestHandler.handler :=
  {| CustomHTTPRequestHandler.version_string := sample.version;
     CustomHTTPRequestHandler.date_time_string := "Tue, 03 Nov 2026 12:00:00 GMT";
     CustomHTTPRequestHandler._headers_buffer := [];
     CustomHTTPRequestHandler.wfile := [] |}.

(** The header calls and the body write of [sample.static_GET]. *)
Definition error_headers : list call :=
  [SendResponse 404 (Some "File not found"%string);
   SendHeader "Connection" "close";
   SendHeader "Content-Type" "text/html;charset=utf-8"].

Definition error_body : list call := [Write (blit "<h1>Error response</h1>")].

(** Ports 8000..8002 are taken. *)
Definition first_three_refused (port : Z) : bool := port <? 8003.

Definition nothing_exists (_ : string) : bool := false.
Definition everything_exists (_ : string) : bool := true.

End examples.

(** Run the launcher handler's API on a handler given by its fields. *)
Ltac launcher_fields self :=
  destruct self;
  cbv [CustomHTTPRequestHandler.version_string CustomHTTPRequestHandler.date_time_string
       CustomHTTPRequestHandler._headers_buffer CustomHTTPRequestHandler.wfile] in *.

Ltac launcher_api :=
  cbv [CustomHTTPRequestHandler.run_call
       CustomHTTPRequestHandler.end_headers CustomHTTPRequestHandler.send_response
       CustomHTTPRequestHandler.send_header CustomHTTPRequestHandler.super_end_headers
       CustomHTTPRequestHandler.wfile_write
       CustomHTTPRequestHandler.version_string CustomHTTPRequestHandler.date_time_string
       CustomHTTPRequestHandler._headers_buffer CustomHTTPRequestHandler.wfile].


(** The calls that only add to the header buffer, and the body writes. *)
Definition header_call (c : call) : Prop :=
  match c with SendResponse _ _ | SendHeader _ _ => True | _ => False end.

Definition write_call (c : call) : Prop :=
  match c with Write _ => True | _ => False end.

(** The lines one call adds to the header buffer. *)
Definition sent_lines (server date : string) (c : call) : list line :=
  match c with
  | SendResponse code message =>
      [StatusLine code message; HeaderLine "Server" server; HeaderLine "Date" date]
  | SendHeader keyword value => [HeaderLine keyword value]
  | _ => []
  end.

(** The body chunks a sequence of calls writes. *)
Definition written_bodies (p : list call) : list chunk :=
  flat_map (fun c => match c with Write data => [Body data] | _ => [] end) p.

(** ** Tactics *)

(** Run the handler API on a handler given by its fields. *)
Ltac unfold_api :=
  cbv [do_OPTIONS end_headers send_response send_header
       super_end_headers wfile_write with_buffer with_wfile
       encryption_key command path version_string date_time_string
       _headers_buffer wfile].

Ltac fields self :=
  destruct self;
  cbv [encryption_key command path version_string date_time_string
       _headers_buffer wfile] in *.

(** Compare two written outputs up to the bracketing of [++]. *)
Ltac written :=
  unfold_api; unfold cors_policy; rewrite <- ?app_assoc; cbn [app]; reflexivity.

(** ** Encoding lemmas *)

Section Encoding.

Lemma land_15_lt (n : N) : (N.land n 0xF < 16)%N.
Proof.
  change 0xF%N with (N.ones 4). rewrite N.land_ones.
  apply N.mod_lt. discriminate.
Qed.

Lemma hex_digit_printable (d : N) : (d < 16)%N -> ascii_printable (json.hex_digit d).
Proof.
  intros Hd. unfold json.hex_digit, ascii_printable.
  destruct (N.ltb_spec d 10); lia.
Qed.

Lemma u_escape_printable (n : N) : Forall ascii_printable (json.u_escape n).
Proof.
  unfold json.u_escape.
  repeat constructor; try (apply hex_digit_printable, land_15_lt);
    unfold ascii_printable, backslash; lia.
Qed.

Lemma escape_char_printable (c : N) : Forall ascii_printable (json.escape_char c).
Proof.
  unfold json.escape_char.
  repeat match goal with
         | |- context [if ?b then _ else _] => destruct b eqn:?
         end;
    try (repeat constructor; unfold ascii_printable, backslash, dquote; lia).
  - constructor; [|constructor].
    match goal with H : (_ && _) = true |- _ => apply andb_prop in H as [H1 H2] end.
    apply N.leb_le in H1. apply N.leb_le in H2. split; assumption.
  - apply u_escape_printable.
  - apply Forall_app; split; apply u_escape_printable.
Qed.

Lemma encode_basestring_ascii_printable (s : str) :
  Forall ascii_printable (json.encode_basestring_ascii s).
Proof.
  unfold json.encode_basestring_ascii.
  apply Forall_app; split; [repeat constructor; unfold ascii_printable, dquote; lia|].
  apply Forall_app; split; [|repeat constructor; unfold ascii_printable, dquote; lia].
  induction s as [|c s IH]; simpl; [constructor|].
  apply Forall_app; split; [apply escape_char_printable | exact IH].
Qed.

Lemma escape_char_plain (c : N) : plain c -> json.escape_char c = [c].
Proof.
  intros [[Hlo Hhi] [Hq Hb]]. unfold json.escape_char.
  destruct (N.eqb_spec c backslash); [contradiction|].
  destruct (N.eqb_spec c dquote); [contradiction|].
  repeat match goal with
         | |- context [(c =? ?k)%N] => destruct (N.eqb_spec c k); [lia|]
         end.
  destruct (N.leb_spec 32 c); [|lia].
  destruct (N.leb_spec c 126); [|lia].
  reflexivity.
Qed.

Lemma flat_map_escape_plain (s : str) :
  Forall plain s -> flat_map json.escape_char s = s.
Proof.
  induction 1 as [|c s Hc _ IH]; simpl; [reflexivity|].
  rewrite escape_char_plain, IH by assumption. reflexivity.
Qed.

(** A code point below the surrogates is encoded without error. *)
Lemma utf8_char_ok (c : N) : encodable c -> exists b, utf8_char c = Ok b.
Proof.
  unfold encodable. intros Hc. unfold utf8_char.
  destruct (c <? 0x80)%N; [eauto|].
  destruct (c <? 0x800)%N; [eauto|].
  destruct (N.leb_spec 0xD800 c); [lia|]. simpl.
  destruct (c <? 0x10000)%N; eauto.
Qed.

Lemma encode_utf8_ok (s : str) :
  Forall encodable s -> exists b, encode_utf8 s = Ok b.
Proof.
  induction 1 as [|c s Hc _ [bs IH]]; simpl; [eauto|].
  destruct (utf8_char_ok c Hc) as [b Hb].
  rewrite Hb, IH. simpl. eauto.
Qed.

(** ASCII text is encoded byte for byte. *)
Lemma encode_utf8_ascii (s : str) :
  Forall (fun c => (c < 0x80)%N) s -> encode_utf8 s = Ok (map byte_of_N s).
Proof.
  induction 1 as [|c s Hc _ IH]; simpl; [reflexivity|].
  unfold utf8_char. destruct (N.ltb_spec c 0x80); [|lia].
  simpl. rewrite IH. reflexivity.
Qed.

End Encoding.

(** ** Reading back what [json.dumps] wrote *)

Section ReadBack.

Import json_text.

Lemma hex_value_digit (d : N) : (d < 16)%N -> hex_value (json.hex_digit d) = Some d.
Proof.
  intros Hd.
  assert (Hcases : (d = 0 \/ d = 1 \/ d = 2 \/ d = 3 \/ d = 4 \/ d = 5 \/ d = 6 \/ d = 7 \/
                   d = 8 \/ d = 9 \/ d = 10 \/ d = 11 \/ d = 12 \/ d = 13 \/ d = 14 \/
                   d = 15)%N) by lia.
  repeat (destruct Hcases as [->|Hcases]; [reflexivity|]). subst d. reflexivity.
Qed.

Lemma nibbles (n : N) :
  (n < 0x10000)%N ->
  (4096 * N.land (N.shiftr n 12) 0xF + 256 * N.land (N.shiftr n 8) 0xF
   + 16 * N.land (N.shiftr n 4) 0xF + N.land n 0xF = n)%N.
Proof.
  intros Hn. change 0xF%N with (N.ones 4).
  rewrite !N.land_ones, !N.shiftr_div_pow2.
  change (2 ^ 12)%N with 4096%N. change (2 ^ 8)%N with 256%N. change (2 ^ 4)%N with 16%N.
  zify; Z.to_euclidean_division_equations; lia.
Qed.

(** The four digits written by [u_escape] are read back as the number. *)
Lemma hex4_u_escape (n : N) (t : str) :
  (n < 0x10000)%N ->
  exists a b c d,
    json.u_escape n ++ t = backslash :: 117%N :: a :: b :: c :: d :: t /\
    hex4 a b c d = Some n.
Proof.
  intros Hn. do 4 eexists. split; [reflexivity|].
  unfold hex4. rewrite !hex_value_digit by apply land_15_lt.
  rewrite nibbles by assumption. reflexivity.
Qed.

Lemma land_shiftl_low (a b n : N) : (b < 2 ^ n)%N -> N.land (N.shiftl a n) b = 0%N.
Proof.
  intros Hb. apply N.bits_inj_0. intros i. rewrite N.land_spec.
  destruct (N.lt_ge_cases i n) as [Hlt|Hge].
  - rewrite N.shiftl_spec_low by assumption. reflexivity.
  - destruct (N.eq_dec b 0%N) as [->|Hnz]; [rewrite N.bits_0; apply andb_false_r|].
    rewrite (N.bits_above_log2 b i); [apply andb_false_r|].
    apply N.lt_le_trans with n; [|exact Hge].
    apply N.log2_lt_pow2; [lia | exact Hb].
Qed.

Lemma lor_shiftl_add (a b n : N) :
  (b < 2 ^ n)%N -> N.lor (N.shiftl a n) b = (a * 2 ^ n + b)%N.
Proof.
  intros Hb. rewrite <- N.lxor_lor by (apply land_shiftl_low, Hb).
  rewrite <- N.add_nocarry_lxor by (apply land_shiftl_low, Hb).
  rewrite N.shiftl_mul_pow2. reflexivity.
Qed.

Lemma scan_u (a b c d uni : N) (t : str) :
  hex4 a b c d = Some uni ->
  (uni < 0xD800 \/ 0xDBFF < uni)%N ->
  scanstring (backslash :: 117%N :: a :: b :: c :: d :: t) = push uni (scanstring t).
Proof.
  intros Hhex Huni.
  change (scanstring (backslash :: 117%N :: a :: b :: c :: d :: t))
    with (match hex4 a b c d with
          | None => None
          | Some uni =>
              if (0xD800 <=? uni)%N && (uni <=? 0xDBFF)%N then
                match t with
                | b2 :: u2 :: a' :: b' :: c'' :: d' :: t4 =>
                    if (b2 =? backslash)%N && (u2 =? 117)%N then
                      match hex4 a' b' c'' d' with
                      | None => None
                      | Some uni2 =>
                          if (0xDC00 <=? uni2)%N && (uni2 <=? 0xDFFF)%N then
                            push (0x10000
                                  + N.lor (N.shiftl (uni - 0xD800) 10) (uni2 - 0xDC00))%N
                              (scanstring t4)
                          else push uni (scanstring t)
                      end
                    else push uni (scanstring t)
                | _ => push uni (scanstring t)
                end
              else push uni (scanstring t)
          end).
  rewrite Hhex.
  destruct (N.leb_spec 0xD800 uni); [|reflexivity].
  destruct (N.leb_spec uni 0xDBFF); [lia|reflexivity].
Qed.

Lemma scan_pair (a b c d a' b' c' d' hi lo : N) (t : str) :
  hex4 a b c d = Some hi ->
  (0xD800 <= hi <= 0xDBFF)%N ->
  hex4 a' b' c' d' = Some lo ->
  (0xDC00 <= lo <= 0xDFFF)%N ->
  scanstring (backslash :: 117%N :: a :: b :: c :: d
              :: backslash :: 117%N :: a' :: b' :: c' :: d' :: t)
  = push (0x10000 + N.lor (N.shiftl (hi - 0xD800) 10) (lo - 0xDC00))%N (scanstring t).
Proof.
  intros Hhi Hrhi Hlo Hrlo.
  change (scanstring (backslash :: 117%N :: a :: b :: c :: d
                      :: backslash :: 117%N :: a' :: b' :: c' :: d' :: t))
    with (match hex4 a b c d with
          | None => None
          | Some uni =>
              if (0xD800 <=? uni)%N && (uni <=? 0xDBFF)%N then
                match hex4 a' b' c' d' with
                | None => None
                | Some uni2 =>
                    if (0xDC00 <=? uni2)%N && (uni2 <=? 0xDFFF)%N then
                      push (0x10000
                            + N.lor (N.shiftl (uni - 0xD800) 10) (uni2 - 0xDC00))%N
                        (scanstring t)
                    else
                      push uni
                        (scanstring (backslash :: 117%N :: a' :: b' :: c' :: d' :: t))
                end
              else
                push uni (scanstring (backslash :: 117%N :: a' :: b' :: c' :: d' :: t))
          end).
  rewrite Hhi, Hlo.
  destruct (N.leb_spec 0xD800 hi); [|lia].
  destruct (N.leb_spec hi 0xDBFF); [|lia].
  destruct (N.leb_spec 0xDC00 lo); [|lia].
  destruct (N.leb_spec lo 0xDFFF); [|lia].
  reflexivity.
Qed.

Lemma high_surrogate (n : N) :
  (n < 0x100000)%N ->
  N.lor 0xD800 (N.land (N.shiftr n 10) 0x3FF) = (0xD800 + n / 1024)%N.
Proof.
  intros Hn. change 0xD800%N with (N.shiftl 54 10). change 0x3FF%N with (N.ones 10).
  rewrite N.land_ones, N.shiftr_div_pow2.
  rewrite lor_shiftl_add by (apply N.mod_lt; discriminate).
  change (N.shiftl 54 10) with 0xD800%N. change (2 ^ 10)%N with 1024%N.
  zify; Z.to_euclidean_division_equations; lia.
Qed.

Lemma low_surrogate (n : N) :
  N.lor 0xDC00 (N.land n 0x3FF) = (0xDC00 + n mod 1024)%N.
Proof.
  change 0xDC00%N with (N.shiftl 55 10). change 0x3FF%N with (N.ones 10).
  rewrite N.land_ones.
  rewrite lor_shiftl_add by (apply N.mod_lt; discriminate).
  reflexivity.
Qed.

Lemma join_surrogates (n : N) :
  (0x10000 + N.lor (N.shiftl (0xD800 + n / 1024 - 0xD800) 10)
                   (0xDC00 + n mod 1024 - 0xDC00) = 0x10000 + n)%N.
Proof.
  assert (Hcancel : forall a b : N, (a + b - a = b)%N) by (intros; lia).
  rewrite !Hcancel.
  rewrite lor_shiftl_add by (apply N.mod_lt; discriminate).
  change (2 ^ 10)%N with 1024%N.
  zify; Z.to_euclidean_division_equations; lia.
Qed.

(** A character written as [\uXXXX], alone or as a surrogate pair. *)
Lemma scan_escaped_outside (c : N) (t : str) :
  scalar c ->
  (c < 32 \/ 126 < c)%N ->
  scanstring ((if (c <? 0x10000)%N then json.u_escape c
               else json.u_escape
                      (N.lor 0xD800 (N.land (N.shiftr (c - 0x10000) 10) 0x3FF))
                    ++ json.u_escape (N.lor 0xDC00 (N.land (c - 0x10000) 0x3FF)))
              ++ t)
  = push c (scanstring t).
Proof.
  intros Hc Hout. destruct (N.ltb_spec c 0x10000) as [Hbmp|Hsup].
  - destruct (hex4_u_escape c t Hbmp) as (a & b & c1 & d & -> & Hhex).
    apply scan_u; [exact Hhex|]. unfold scalar in Hc. lia.
  - assert (Hn : (c - 0x10000 < 0x100000)%N) by (unfold scalar in Hc; lia).
    rewrite high_surrogate by exact Hn. rewrite low_surrogate.
    rewrite <- app_assoc.
    assert (Hdiv : ((c - 0x10000) / 1024 < 1024)%N)
      by (zify; Z.to_euclidean_division_equations; lia).
    assert (Hmod : ((c - 0x10000) mod 1024 < 1024)%N) by (apply N.mod_lt; discriminate).
    replace (push c (scanstring t))
      with (push (0x10000 + (c - 0x10000))%N (scanstring t)) by (f_equal; lia).
    rewrite <- (join_surrogates (c - 0x10000)).
    set (q := ((c - 0x10000) / 1024)%N) in *.
    set (r := ((c - 0x10000) mod 1024)%N) in *.
    destruct (hex4_u_escape (0xDC00 + r) t)
      as (a' & b' & c' & d' & -> & Hlo); [lia|].
    destruct (hex4_u_escape (0xD800 + q)
                (backslash :: 117%N :: a' :: b' :: c' :: d' :: t))
      as (a & b & c1 & d & -> & Hhi); [lia|].
    rewrite (scan_pair a b c1 d a' b' c' d' _ _ t Hhi ltac:(lia) Hlo ltac:(lia)).
    reflexivity.
Qed.

(** One escaped character is read back as the character. *)
Lemma scan_escape_char (c : N) (t : str) :
  scalar c ->
  scanstring (json.escape_char c ++ t) = push c (scanstring t).
Proof.
  intros Hc. unfold json.escape_char.
  destruct (N.eqb_spec c backslash) as [->|Hn1]; [reflexivity|].
  destruct (N.eqb_spec c dquote) as [->|Hn2]; [reflexivity|].
  destruct (N.eqb_spec c 8) as [->|Hn3]; [reflexivity|].
  destruct (N.eqb_spec c 12) as [->|Hn4]; [reflexivity|].
  destruct (N.eqb_spec c 10) as [->|Hn5]; [reflexivity|].
  destruct (N.eqb_spec c 13) as [->|Hn6]; [reflexivity|].
  destruct (N.eqb_spec c 9) as [->|Hn7]; [reflexivity|].
  destruct (N.leb_spec 32 c) as [Hlo|Hlo]; cbn [andb].
  - destruct (N.leb_spec c 126) as [Hhi|Hhi].
    + cbn [app scanstring].
      destruct (N.eqb_spec c dquote); [contradiction|].
      destruct (N.eqb_spec c backslash); [contradiction|].
      destruct (N.ltb_spec c 0x20); [lia|reflexivity].
    + apply scan_escaped_outside; [exact Hc | right; exact Hhi].
  - apply scan_escaped_outside; [exact Hc | left; exact Hlo].
Qed.

(** The characters of a string literal are read back up to its closing
    quote. *)
Lemma scan_escaped (s rest : str) :
  Forall scalar s ->
  scanstring (flat_map json.escape_char s ++ dquote :: rest) = Some (s, rest).
Proof.
  induction 1 as [|c s Hc _ IH]; [reflexivity|].
  cbn [flat_map]. rewrite <- app_assoc, scan_escape_char by assumption.
  rewrite IH. reflexivity.
Qed.

End ReadBack.

(** ** Every value is dumped to text that [encode('utf-8')] accepts *)

Section ValueInduction.

Variable P : value -> Prop.
Hypothesis HNone : P None_.
Hypothesis HBool : forall b, P (Bool b).
Hypothesis HInt : forall z, P (Int z).
Hypothesis HFloat : forall nz r, P (Float nz r).
Hypothesis HStr : forall s, P (Str s).
Hypothesis HList : forall l, Forall P l -> P (List l).
Hypothesis HDict : forall d, Forall (fun kv => P (snd kv)) d -> P (Dict d).

Lemma value_nested_ind : forall v : value, P v.
Proof using All.
  fix IH 1. intros [ | b | z | nz r | s | l | d].
  - exact HNone.
  - apply HBool.
  - apply HInt.
  - apply HFloat.
  - apply HStr.
  - apply HList. induction l as [|x l IHl]; constructor; [apply IH | exact IHl].
  - apply HDict. induction d as [|kv d IHd]; constructor; [apply IH | exact IHd].
Qed.

End ValueInduction.

Section Dumps.

Lemma lit_encodable (s : string) : Forall encodable (lit s).
Proof.
  unfold lit. apply Forall_map, Forall_forall. intros a _.
  pose proof (N_ascii_bounded a). unfold encodable. lia.
Qed.

Lemma printable_encodable (s : str) : Forall ascii_printable s -> Forall encodable s.
Proof. apply List.Forall_impl. unfold ascii_printable, encodable. lia. Qed.

Lemma join_encodable (sep : str) (parts : list str) :
  Forall encodable sep -> Forall (Forall encodable) parts ->
  Forall encodable (join sep parts).
Proof.
  intros Hsep. induction 1 as [|p ps Hp Hps IH]; [constructor|].
  destruct ps as [|q ps]; [exact Hp|].
  change (Forall encodable (p ++ sep ++ join sep (q :: ps))).
  repeat (apply Forall_app; split); assumption.
Qed.

Lemma dumps_List (l : list value) :
  json.dumps (List l) = lit "[" ++ join (lit ", ") (map json.dumps l) ++ lit "]".
Proof. reflexivity. Qed.

Lemma dumps_Dict (d : list (str * value)) :
  json.dumps (Dict d)
  = lit "{"
    ++ join (lit ", ")
         (map (fun kv => json.encode_basestring_ascii (fst kv) ++ lit ": "
                         ++ json.dumps (snd kv)) d)
    ++ lit "}".
Proof. reflexivity. Qed.

Lemma dumps_encodable (v : value) : Forall encodable (json.dumps v).
Proof.
  induction v using value_nested_ind;
    [ | | | | | rewrite dumps_List | rewrite dumps_Dict ].
  - apply lit_encodable.
  - destruct b; apply lit_encodable.
  - apply lit_encodable.
  - apply lit_encodable.
  - apply printable_encodable, encode_basestring_ascii_printable.
  - repeat (apply Forall_app; split); try apply lit_encodable.
    apply join_encodable; [apply lit_encodable|].
    apply Forall_map. exact H.
  - repeat (apply Forall_app; split); try apply lit_encodable.
    apply join_encodable; [apply lit_encodable|].
    apply Forall_map. eapply List.Forall_impl; [|exact H].
    intros [k x] Hx. cbn [fst snd] in *.
    apply Forall_app; split;
      [apply printable_encodable, encode_basestring_ascii_printable|].
    apply Forall_app; split; [apply lit_encodable | exact Hx].
Qed.

(** [json.dumps(...).encode('utf-8')] never raises. *)
Lemma dumps_encode_ok (v : value) : exists data, encode_utf8 (json.dumps v) = Ok data.
Proof. apply encode_utf8_ok, dumps_encodable. Qed.

End Dumps.

(** ** The key endpoint *)

Section KeyEndpoint.

Variable tree : Type.
Variable G : tree -> str -> list call.

Lemma dumps_key_str (s : str) :
  json.dumps (Dict [(lit "key", Str s)])
  = lit "{" ++ json.encode_basestring_ascii (lit "key") ++ lit ": "
    ++ json.encode_basestring_ascii s ++ lit "}".
Proof. reflexivity. Qed.

Lemma do_GET_key_present (cwd : tree) (self : handler) (data : bytes) :
  path self = key_path ->
  truthy (encryption_key self) = true ->
  encode_utf8 (json.dumps (Dict [(lit "key", encryption_key self)])) = Ok data ->
  exists self',
    do_GET tree G cwd self = Ok self' /\
    encryption_key self' = encryption_key self /\
    wfile self'
    = wfile self
      ++ [Head (_headers_buffer self
                ++ [StatusLine 200 None;
                    HeaderLine "Server" (version_string self);
                    HeaderLine "Date" (date_time_string self);
                    HeaderLine "Content-Type" "application/json"]
                ++ cors_policy);
          Body data].
Proof.
  intros Hpath Hkey Henc. unfold do_GET.
  destruct (decide (path self = lit "/api/encryption-key")) as [_|Hne];
    [|contradiction].
  rewrite Hkey. fields self. unfold_api. rewrite Henc. cbn [bind].
  eexists. split; [reflexivity|]. split; [reflexivity|]. written.
Qed.

Lemma do_GET_key_absent (cwd : tree) (self : handler) :
  path self = key_path ->
  truthy (encryption_key self) = false ->
  exists self',
    do_GET tree G cwd self = Ok self' /\
    encryption_key self' = encryption_key self /\
    wfile self'
    = wfile self
      ++ [Head (_headers_buffer self
                ++ [StatusLine 404 None;
                    HeaderLine "Server" (version_string self);
                    HeaderLine "Date" (date_time_string self)]
                ++ cors_policy);
          Body (blit "Encryption key not configured")].
Proof.
  intros Hpath Hkey. unfold do_GET.
  destruct (decide (path self = lit "/api/encryption-key")) as [_|Hne];
    [|contradiction].
  rewrite Hkey. fields self.
  eexists. split; [reflexivity|]. split; [reflexivity|]. written.
Qed.

End KeyEndpoint.

(** ** The header policy *)

Section HeaderPolicy.

Lemma heads_app (w1 w2 : list chunk) : heads (w1 ++ w2) = heads w1 ++ heads w2.
Proof. unfold heads. apply flat_map_app. Qed.

Lemma end_headers_wfile (self : handler) :
  wfile (end_headers self)
  = wfile self ++ [Head (_headers_buffer self ++ cors_policy)].
Proof. fields self. written. Qed.

Lemma end_headers_key (self : handler) :
  encryption_key (end_headers self) = encryption_key self.
Proof. fields self. reflexivity. Qed.

Lemma run_call_key (c : call) (self : handler) :
  encryption_key (run_call c self) = encryption_key self.
Proof. destruct c; fields self; reflexivity. Qed.

Lemma run_key (p : list call) (self : handler) :
  encryption_key (run p self) = encryption_key self.
Proof.
  revert self. induction p as [|c p IH]; intros self; [reflexivity|].
  cbn [run fold_left]. fold (run p (run_call c self)).
  rewrite IH. apply run_call_key.
Qed.

(** What one call adds to the header blocks on the wire. *)
Lemma run_call_heads (c : call) (self : handler) :
  heads (wfile (run_call c self))
  = heads (wfile self)
    ++ match c with
       | EndHeaders => [_headers_buffer self ++ cors_policy]
       | _ => []
       end.
Proof.
  destruct c; cbn [run_call].
  - fields self. unfold_api. rewrite app_nil_r. reflexivity.
  - fields self. unfold_api. rewrite app_nil_r. reflexivity.
  - rewrite end_headers_wfile, heads_app. reflexivity.
  - fields self. unfold_api. rewrite heads_app. reflexivity.
Qed.

Lemma run_policy (p : list call) (self : handler) :
  Forall ends_with_policy (heads (wfile self)) ->
  Forall ends_with_policy (heads (wfile (run p self))).
Proof.
  revert self. induction p as [|c p IH]; intros self Hinv; [exact Hinv|].
  cbn [run fold_left]. fold (run p (run_call c self)).
  apply IH. rewrite run_call_heads. apply Forall_app; split; [exact Hinv|].
  destruct c; repeat constructor. eexists; reflexivity.
Qed.





End HeaderPolicy.

Section Handling.

Variable tree : Type.
Variables G H : tree -> str -> list call.
Variable E : str -> list call.
Variable server_version : string.

Lemma printable_is_ascii (s : str) :
  Forall ascii_printable s -> Forall (fun c => (c < 0x80)%N) s.
Proof. apply List.Forall_impl. unfold ascii_printable. lia. Qed.

Lemma dumps_key_bytes (s : str) :
  encode_utf8 (json.dumps (Dict [(lit "key", Str s)]))
  = Ok (key_body (map byte_of_N (flat_map json.escape_char s))).
Proof.
  rewrite encode_utf8_ascii.
  - rewrite dumps_key_str. unfold key_body, json.encode_basestring_ascii.
    rewrite !List.map_app, <- !app_assoc. reflexivity.
  - rewrite dumps_key_str. apply printable_is_ascii.
    apply Forall_app; split; [vm_compute; repeat constructor; discriminate|].
    apply Forall_app; split; [apply encode_basestring_ascii_printable|].
    apply Forall_app; split; [vm_compute; repeat constructor; discriminate|].
    apply Forall_app; split; [apply encode_basestring_ascii_printable|].
    vm_compute; repeat constructor; discriminate.
Qed.

Lemma handle_GET (cwd : tree) (self : handler) :
  command self = lit "GET" ->
  handle_one_request tree G H E cwd self = do_GET tree G cwd self.
Proof.
  intros Hc. unfold handle_one_request. rewrite Hc.
  destruct (decide (lit "GET" = lit "OPTIONS")) as [Heq|_]; [discriminate Heq|].
  destruct (decide (lit "GET" = lit "GET")) as [_|Hne]; [reflexivity|].
  contradiction Hne. reflexivity.
Qed.

Lemma handle_OPTIONS (cwd : tree) (self : handler) :
  command self = lit "OPTIONS" ->
  handle_one_request tree G H E cwd self = Ok (do_OPTIONS self).
Proof.
  intros Hc. unfold handle_one_request. rewrite Hc.
  destruct (decide (lit "OPTIONS" = lit "OPTIONS")) as [_|Hne]; [reflexivity|].
  contradiction Hne. reflexivity.
Qed.

Lemma do_GET_other (cwd : tree) (self : handler) :
  path self <> key_path ->
  do_GET tree G cwd self = Ok (run (G cwd (path self)) self).
Proof.
  intros Hne. unfold do_GET.
  destruct (decide (path self = lit "/api/encryption-key")) as [Heq|_];
    [contradiction|reflexivity].
Qed.

Lemma init_unfold (environ : gmap string str) (conn : connection tree) :
  __init__ tree G H E server_version environ conn
  = (handle_one_request tree G H E (cwd conn) (built server_version environ conn),
     snd (init_encryption_key environ (config conn))).
Proof.
  unfold __init__, built. destruct (init_encryption_key environ (config conn)).
  reflexivity.
Qed.

Lemma handle_key_present (cwd : tree) (self : handler) (s : str) :
  fresh self ->
  command self = lit "GET" ->
  path self = key_path ->
  encryption_key self = Str s ->
  s <> [] ->
  exists self',
    handle_one_request tree G H E cwd self = Ok self' /\
    status (wfile self') = Some 200 /\
    header "Content-Type" (wfile self') = ["application/json"%string] /\
    body (wfile self') = key_body (map byte_of_N (flat_map json.escape_char s)).
Proof.
  intros [Hbuf Hw] Hcmd Hpath Hkey Hs.
  rewrite handle_GET by assumption.
  destruct (do_GET_key_present tree G cwd self
              (key_body (map byte_of_N (flat_map json.escape_char s))))
    as (self' & Hrun & _ & Hout).
  - assumption.
  - rewrite Hkey. destruct s; [contradiction|reflexivity].
  - rewrite Hkey. apply dumps_key_bytes.
  - exists self'. rewrite Hrun, Hout, Hbuf, Hw.
    split; [reflexivity|]. split; [reflexivity|].
    split; [vm_compute; reflexivity|].
    cbn [app body flat_map]. rewrite app_nil_r. reflexivity.
Qed.

Lemma handle_key_absent (cwd : tree) (self : handler) :
  fresh self ->
  command self = lit "GET" ->
  path self = key_path ->
  truthy (encryption_key self) = false ->
  exists self',
    handle_one_request tree G H E cwd self = Ok self' /\
    status (wfile self') = Some 404 /\
    header "Content-Type" (wfile self') = [] /\
    body (wfile self') = blit "Encryption key not configured".
Proof.
  intros [Hbuf Hw] Hcmd Hpath Hkey.
  rewrite handle_GET by assumption.
  destruct (do_GET_key_absent tree G cwd self Hpath Hkey) as (self' & Hrun & _ & Hout).
  exists self'. rewrite Hrun, Hout, Hbuf, Hw.
  split; [reflexivity|]. split; [reflexivity|].
  split; vm_compute; reflexivity.
Qed.

Lemma policy_block (w : list chunk) (pre : list line) (rest : list chunk) :
  heads rest = [] ->
  Forall ends_with_policy (heads w) ->
  Forall ends_with_policy (heads (w ++ Head (pre ++ cors_policy) :: rest)).
Proof.
  intros Hrest Hinv. rewrite heads_app. apply Forall_app; split; [exact Hinv|].
  change (heads (Head (pre ++ cors_policy) :: rest))
    with ((pre ++ cors_policy) :: heads rest).
  rewrite Hrest. repeat constructor. exists pre. reflexivity.
Qed.

(** [do_GET] never raises, keeps the key, and every header block it
    writes closes with the policy lines. *)
Lemma do_GET_total (cwd : tree) (self : handler) :
  Forall ends_with_policy (heads (wfile self)) ->
  exists self',
    do_GET tree G cwd self = Ok self' /\
    encryption_key self' = encryption_key self /\
    Forall ends_with_policy (heads (wfile self')).
Proof.
  intros Hinv.
  destruct (decide (path self = key_path)) as [Hpath|Hpath].
  - destruct (truthy (encryption_key self)) eqn:Hkey.
    + destruct (dumps_encode_ok (Dict [(lit "key", encryption_key self)])) as [data Hd].
      destruct (do_GET_key_present tree G cwd self data Hpath Hkey Hd)
        as (self' & Hrun & Hk & Hout).
      exists self'. split; [exact Hrun|]. split; [exact Hk|].
      rewrite Hout, app_assoc. apply policy_block; [reflexivity | exact Hinv].
    + destruct (do_GET_key_absent tree G cwd self Hpath Hkey)
        as (self' & Hrun & Hk & Hout).
      exists self'. split; [exact Hrun|]. split; [exact Hk|].
      rewrite Hout, app_assoc. apply policy_block; [reflexivity | exact Hinv].
  - rewrite do_GET_other by assumption. eexists. split; [reflexivity|].
    split; [apply run_key | apply run_policy, Hinv].
Qed.

Lemma do_OPTIONS_wfile (self : handler) :
  wfile (do_OPTIONS self)
  = wfile self
    ++ [Head (_headers_buffer self
              ++ [StatusLine 200 (Some "ok"%string);
                  HeaderLine "Server" (version_string self);
                  HeaderLine "Date" (date_time_string self)]
              ++ cors_policy)].
Proof. fields self. written. Qed.

Lemma handle_total (cwd : tree) (self : handler) :
  Forall ends_with_policy (heads (wfile self)) ->
  exists self',
    handle_one_request tree G H E cwd self = Ok self' /\
    encryption_key self' = encryption_key self /\
    Forall ends_with_policy (heads (wfile self')).
Proof.
  intros Hinv. unfold handle_one_request.
  destruct (decide (command self = lit "OPTIONS")).
  { eexists. split; [reflexivity|]. split; [fields self; reflexivity|].
    rewrite do_OPTIONS_wfile, app_assoc. apply policy_block; [reflexivity|exact Hinv]. }
  destruct (decide (command self = lit "GET")).
  { apply do_GET_total, Hinv. }
  destruct (decide (command self = lit "HEAD"));
    (eexists; split; [reflexivity|]; split; [apply run_key | apply run_policy, Hinv]).
Qed.


End Handling.

(** ** Key resolution *)

Section Resolution.

Lemma truthy_env_value (environ : gmap string str) :
  truthy (from_option Str None_ (environ !! VITE_ENCRYPTION_KEY)) = false
  <-> env_unset environ.
Proof.
  unfold env_unset. destruct (environ !! VITE_ENCRYPTION_KEY) as [[|c v]|]; simpl.
  - split; [intros _; right; reflexivity | reflexivity].
  - split; [discriminate | intros [?|?]; discriminate].
  - split; [intros _; left; reflexivity | reflexivity].
Qed.

(** A non-empty value of the variable is the key; nothing else is read. *)
Lemma resolve_env (environ : gmap string str) (cfg : config_file) (v : str) :
  environ !! VITE_ENCRYPTION_KEY = Some v -> v <> [] ->
  init_encryption_key environ cfg = (Str v, [EnvironGet VITE_ENCRYPTION_KEY]).
Proof.
  intros Hv Hne. unfold init_encryption_key. rewrite Hv.
  destruct v; [contradiction|reflexivity].
Qed.

Lemma resolve_missing (environ : gmap string str) :
  env_unset environ ->
  init_encryption_key environ Missing
  = (None_, [EnvironGet VITE_ENCRYPTION_KEY; PathExists local_config_json]).
Proof.
  intros Hu. apply truthy_env_value in Hu.
  unfold init_encryption_key. rewrite Hu. reflexivity.
Qed.

Lemma resolve_loaded (environ : gmap string str) (load : result value) (v : value) :
  env_unset environ ->
  bind load (fun config => get config (lit VITE_ENCRYPTION_KEY)) = Ok v ->
  init_encryption_key environ (Present load)
  = (v, [EnvironGet VITE_ENCRYPTION_KEY; PathExists local_config_json;
         OpenLoad local_config_json]).
Proof.
  intros Hu Hload. apply truthy_env_value in Hu.
  unfold init_encryption_key. rewrite Hu. cbn [negb]. rewrite Hload. reflexivity.
Qed.

Lemma resolve_failed (environ : gmap string str) (load : result value) (e : exn) :
  env_unset environ ->
  bind load (fun config => get config (lit VITE_ENCRYPTION_KEY)) = Raise e ->
  init_encryption_key environ (Present load)
  = (None_, [EnvironGet VITE_ENCRYPTION_KEY; PathExists local_config_json;
             OpenLoad local_config_json;
             Print (lit "Error loading local config: " ++ exn_str e)]).
Proof.
  intros Hu Hload. apply truthy_env_value in Hu.
  unfold init_encryption_key. rewrite Hu. cbn [negb]. rewrite Hload. reflexivity.
Qed.


End Resolution.

(** ** The claims about cors_server.py *)

Section CorsServerClaims.

Variable tree : Type.
Variables G H : tree -> str -> list call.
Variable E : str -> list call.
Variable server_version : string.

Local Abbreviation __init__ := (__init__ tree G H E server_version).
Local Abbreviation serve_forever := (serve_forever tree G H E server_version).
Local Abbreviation handle_one_request := (handle_one_request tree G H E).
Local Abbreviation __main__ := (cors_server.__main__ tree G H E server_version).


(** C2: a GET of /api/encryption-key, when key resolution yields a
    non-empty string, is answered with status 200, one Content-Type
    header equal to application/json, and a body that is the JSON text
    mapping "key" to the string literal of the value: a JSON reader gets
    the value back from the literal, and when the value needs no escaping
    the literal is the value itself between the quotes. *)
Theorem C2_key_present_200_json
    (environ : gmap string str) (conn : connection tree) (s : str) :
  request_command conn = lit "GET" ->
  request_path conn = key_path ->
  fst (init_encryption_key environ (config conn)) = Str s ->
  s <> [] ->
  exists self',
    fst (__init__ environ conn) = Ok self' /\
    status (wfile self') = Some 200 /\
    header "Content-Type" (wfile self') = ["application/json"%string] /\
    body (wfile self') = key_body (map byte_of_N (flat_map json.escape_char s)) /\
    (Forall scalar s ->
     json_text.scanstring (flat_map json.escape_char s ++ [dquote]) = Some (s, [])) /\
    (Forall plain s -> body (wfile self') = key_body (map byte_of_N s)).
Proof.
  intros Hcmd Hpath Hkey Hs. rewrite init_unfold. cbn [fst].
  destruct (handle_key_present tree G H E (cwd conn)
              (built server_version environ conn) s)
    as (self' & Hrun & Hst & Hct & Hbody);
    try assumption; [split; reflexivity|].
  exists self'. repeat (split; [assumption|]).
  split; [apply scan_escaped|].
  intros Hplain. rewrite Hbody, flat_map_escape_plain by assumption. reflexivity.
Qed.

(** C3: when key resolution yields no value (in particular with the
    variable unset and no configuration file), a GET of
    /api/encryption-key is answered with status 404 and the body
    [Encryption key not configured]; no Content-Type header is sent. *)
Theorem C3_key_absent_404 (environ : gmap string str) (conn : connection tree) :
  request_command conn = lit "GET" ->
  request_path conn = key_path ->
  truthy (fst (init_encryption_key environ (config conn))) = false ->
  exists self',
    fst (__init__ environ conn) = Ok self' /\
    status (wfile self') = Some 404 /\
    header "Content-Type" (wfile self') = [] /\
    body (wfile self') = blit "Encryption key not configured".
Proof.
  intros Hcmd Hpath Hkey. rewrite init_unfold. cbn [fst].
  apply handle_key_absent; try assumption. split; reflexivity.
Qed.

(** C4 (amended): a non-empty value of VITE_ENCRYPTION_KEY is the key and
    the configuration file is not read; when the variable is unset or
    empty and the file holds a JSON object, the key is the value of its
    field VITE_ENCRYPTION_KEY, and when that value is a non-empty string a
    GET of /api/encryption-key is answered with 200 and the JSON text
    mapping "key" to it. *)
Theorem C4_priority_env_then_file (environ : gmap string str) (conn : connection tree) :
  request_command conn = lit "GET" ->
  request_path conn = key_path ->
  (forall v, environ !! VITE_ENCRYPTION_KEY = Some v -> v <> [] ->
     init_encryption_key environ (config conn)
     = (Str v, [EnvironGet VITE_ENCRYPTION_KEY]))
  /\
  (forall d, env_unset environ -> config conn = Present (Ok (Dict d)) ->
     fst (init_encryption_key environ (config conn))
     = dict_get d (lit VITE_ENCRYPTION_KEY)
     /\
     forall s, dict_get d (lit VITE_ENCRYPTION_KEY) = Str s -> s <> [] ->
       exists self',
         fst (__init__ environ conn) = Ok self' /\
         status (wfile self') = Some 200 /\
         body (wfile self') = key_body (map byte_of_N (flat_map json.escape_char s)) /\
         (Forall plain s -> body (wfile self') = key_body (map byte_of_N s))).
Proof.
  intros Hcmd Hpath. split.
  - intros v Hv Hne. apply resolve_env; assumption.
  - intros d Hu Hcfg.
    assert (Hkey : fst (init_encryption_key environ (config conn))
                   = dict_get d (lit VITE_ENCRYPTION_KEY)).
    { rewrite Hcfg.
      rewrite (resolve_loaded environ _ (dict_get d (lit VITE_ENCRYPTION_KEY)));
        [reflexivity | assumption | reflexivity]. }
    split; [exact Hkey|].
    intros s Hs Hne. rewrite init_unfold. cbn [fst].
    destruct (handle_key_present tree G H E (cwd conn)
                (built server_version environ conn) s)
      as (self' & Hrun & Hst & Hct & Hbody);
      try assumption; [split; reflexivity | cbn; rewrite Hkey; exact Hs |].
    exists self'. repeat (split; [assumption|]).
    intros Hplain. rewrite Hbody, flat_map_escape_plain by assumption. reflexivity.
Qed.


(** C6: when loading the configuration file fails (the file cannot be
    read, is not valid JSON, or does not hold an object), the exception is
    caught and printed, the key is [None] as with no file at all, the
    start-up still enters the serving loop, the connection is handled
    without an exception, the key endpoint answers 404, and other GET
    paths are still served by the inherited method. *)
Theorem C6_config_failure_is_absent
    (environ : gmap string str) (conn : connection tree)
    (load : result value) (e : exn) (conns : list (connection tree)) :
  env_unset environ ->
  config conn = Present load ->
  bind load (fun document => get document (lit VITE_ENCRYPTION_KEY)) = Raise e ->
  init_encryption_key environ (config conn)
  = (None_,
     [EnvironGet VITE_ENCRYPTION_KEY; PathExists local_config_json;
      OpenLoad local_config_json;
      Print (lit "Error loading local config: " ++ exn_str e)])
  /\ fst (init_encryption_key environ (config conn))
     = fst (init_encryption_key environ Missing)
  /\ snd (__main__ environ (config conn) true conns) = Ok (serve_forever environ conns)
  /\ (exists self', fst (__init__ environ conn) = Ok self'
                    /\ encryption_key self' = None_)
  /\ (request_command conn = lit "GET" -> request_path conn = key_path ->
      exists self',
        fst (__init__ environ conn) = Ok self' /\
        status (wfile self') = Some 404 /\
        body (wfile self') = blit "Encryption key not configured")
  /\ (request_command conn = lit "GET" -> request_path conn <> key_path ->
      fst (__init__ environ conn)
      = Ok (run (G (cwd conn) (request_path conn)) (built server_version environ conn))).
Proof.
  intros Hu Hcfg Hload.
  assert (Hres : init_encryption_key environ (config conn)
                 = (None_,
                    [EnvironGet VITE_ENCRYPTION_KEY; PathExists local_config_json;
                     OpenLoad local_config_json;
                     Print (lit "Error loading local config: " ++ exn_str e)])).
  { rewrite Hcfg. apply resolve_failed; assumption. }
  split; [exact Hres|].
  split; [rewrite Hres, resolve_missing by assumption; reflexivity|].
  split; [reflexivity|].
  split.
  { rewrite init_unfold. cbn [fst].
    destruct (handle_total tree G H E (cwd conn) (built server_version environ conn))
      as (self' & Hrun & Hk & _); [constructor|].
    exists self'. split; [exact Hrun|].
    rewrite Hk. cbn. rewrite Hres. reflexivity. }
  split.
  - intros Hcmd Hpath. rewrite init_unfold. cbn [fst].
    destruct (handle_key_absent tree G H E (cwd conn) (built server_version environ conn))
      as (self' & Hrun & Hst & _ & Hbody);
      try assumption; [split; reflexivity | cbn; rewrite Hres; reflexivity |].
    exists self'. repeat split; assumption.
  - intros Hcmd Hpath. rewrite init_unfold. cbn [fst].
    rewrite handle_GET by assumption. apply do_GET_other. assumption.
Qed.


(** C8: an OPTIONS request, whatever its path and whatever the key, is
    answered with status 200, the policy headers and no body. *)
Theorem C8_options_200_empty (environ : gmap string str) (conn : connection tree) :
  request_command conn = lit "OPTIONS" ->
  exists self',
    fst (__init__ environ conn) = Ok self' /\
    status (wfile self') = Some 200 /\
    body (wfile self') = [] /\
    wfile self'
    = [Head ([StatusLine 200 (Some "ok"%string);
              HeaderLine "Server" server_version;
              HeaderLine "Date" (now conn)]
             ++ cors_policy)].
Proof.
  intros Hcmd. rewrite init_unfold. cbn [fst].
  rewrite handle_OPTIONS by assumption.
  eexists. split; [reflexivity|].
  rewrite do_OPTIONS_wfile. cbn. repeat split; reflexivity.
Qed.


End CorsServerClaims.

(** ** launch.py: find_free_port *)

Section FindFreePort.

Import launch.

Variable refused : Z -> bool.

Lemma range_nil (start stop : Z) : stop <= start -> range start stop = [].
Proof.
  intros Hle. unfold range.
  replace (Z.to_nat (stop - start)) with O by lia. reflexivity.
Qed.

Lemma range_cons (start stop : Z) :
  start < stop -> range start stop = start :: range (start + 1) stop.
Proof.
  intros Hlt. unfold range.
  replace (Z.to_nat (stop - start)) with (S (Z.to_nat (stop - (start + 1)))) by lia.
  cbn [seq map]. f_equal; [lia|].
  rewrite <- seq_shift, List.map_map.
  apply map_ext. intros i. lia.
Qed.

(** On a valid port number, [bind] succeeds exactly when the system does
    not refuse it, and fails with an [OSError] otherwise. *)
Lemma sock_bind_valid (port : Z) :
  0 <= port <= 65535 ->
  sock_bind refused port
  = if refused port then Raise (OSError (lit "[Errno 98] Address already in use"))
    else Ok tt.
Proof.
  intros Hv. unfold sock_bind.
  destruct (Z.ltb_spec port 0); [lia|].
  destruct (Z.ltb_spec 65535 port); [lia|]. reflexivity.
Qed.

(** The loop over [range(start, stop)] within the valid port numbers:
    it returns the first port that is not refused, or runs to its end
    when all are. *)
Lemma loop_valid_range (k : nat) : forall start stop : Z,
  Z.to_nat (stop - start) = k ->
  0 <= start -> stop <= 65536 ->
  (exists p, find_free_port_loop refused (range start stop) = Some (Ok p) /\
             start <= p < stop /\ refused p = false /\
             forall q, start <= q < p -> refused q = true)
  \/ (find_free_port_loop refused (range start stop) = None /\
      forall q, start <= q < stop -> refused q = true).
Proof.
  induction k as [|k IH]; intros start stop Hk Hlo Hhi.
  - right. rewrite range_nil by lia. split; [reflexivity|]. intros q Hq. lia.
  - rewrite range_cons by lia. cbn [find_free_port_loop].
    rewrite sock_bind_valid by lia.
    destruct (refused start) eqn:Hstart.
    + cbn [is_OSError].
      destruct (IH (start + 1) stop) as [(p & Hp & Hr & Hf & Hsm)|[Hnone Hall]];
        try lia.
      * left. exists p. split; [exact Hp|]. split; [lia|]. split; [exact Hf|].
        intros q Hq. destruct (Z.eq_dec q start) as [->|Hne]; [exact Hstart|].
        apply Hsm. lia.
      * right. split; [exact Hnone|].
        intros q Hq. destruct (Z.eq_dec q start) as [->|Hne]; [exact Hstart|].
        apply Hall. lia.
    + left. exists start. split; [reflexivity|]. split; [lia|].
      split; [exact Hstart|]. intros q Hq. lia.
Qed.




End FindFreePort.

(** ** Instances *)



Lemma plain_abc123 : Forall plain (lit "abc123").
Proof. repeat constructor; vm_compute; congruence. Qed.

Lemma plain_xyz : Forall plain (lit "xyz").
Proof. repeat constructor; vm_compute; congruence. Qed.

Lemma C2_witness :
  exists self',
    fst (sample.connect sample.env_abc123
           (sample.request "GET" "/api/encryption-key" Missing)) = Ok self' /\
    status (wfile self') = Some 200 /\
    header "Content-Type" (wfile self') = ["application/json"%string] /\
    body (wfile self') = key_body (blit "abc123").
Proof.
  destruct (C2_key_present_200_json unit sample.static_GET sample.static_HEAD
              sample.unsupported sample.version
              sample.env_abc123
              (sample.request "GET" "/api/encryption-key" Missing) (lit "abc123"))
    as (self' & Hrun & Hst & Hct & _ & _ & Hbody).
  - reflexivity.
  - reflexivity.
  - vm_compute. reflexivity.
  - discriminate.
  - exists self'. repeat (split; [assumption|]).
    rewrite (Hbody plain_abc123). reflexivity.
Defined.

Lemma C3_witness :
  exists self',
    fst (sample.connect ∅ (sample.request "GET" "/api/encryption-key" Missing)) = Ok self' /\
    status (wfile self') = Some 404 /\
    header "Content-Type" (wfile self') = [] /\
    body (wfile self') = blit "Encryption key not configured".
Proof.
  apply (C3_key_absent_404 unit sample.static_GET sample.static_HEAD sample.unsupported
           sample.version ∅ (sample.request "GET" "/api/encryption-key" Missing)).
  - reflexivity.
  - reflexivity.
  - vm_compute. reflexivity.
Defined.

(** The claim C4 as stated fails: with the variable set to the empty
    string, the key is not that value but the one in the file, which is
    opened and read; and with the variable unset, a file whose field holds
    the empty string gets the 404 answer. *)
Lemma C4_counterexample :
  sample.env_empty_string !! VITE_ENCRYPTION_KEY = Some [] /\
  init_encryption_key sample.env_empty_string sample.xyz_file
  = (Str (lit "xyz"),
     [EnvironGet VITE_ENCRYPTION_KEY; PathExists local_config_json;
      OpenLoad local_config_json]) /\
  fst (init_encryption_key sample.env_empty_string sample.xyz_file) <> Str [] /\
  sample.observed
    (sample.connect ∅ (sample.request "GET" "/api/encryption-key" sample.empty_string_file))
  = (Some 404, blit "Encryption key not configured",
     [EnvironGet VITE_ENCRYPTION_KEY; PathExists local_config_json;
      OpenLoad local_config_json]).
Proof. vm_compute. repeat split; congruence. Qed.

Lemma C4_witness :
  (forall file,
     init_encryption_key sample.env_abc123 file
     = (Str (lit "abc123"), [EnvironGet VITE_ENCRYPTION_KEY]))
  /\ exists self',
       fst (sample.connect ∅ (sample.request "GET" "/api/encryption-key" sample.xyz_file))
       = Ok self' /\
       status (wfile self') = Some 200 /\
       body (wfile self') = key_body (blit "xyz").
Proof.
  split.
  - intros file.
    destruct (C4_priority_env_then_file unit sample.static_GET sample.static_HEAD
                sample.unsupported sample.version
                sample.env_abc123
                (sample.request "GET" "/api/encryption-key" file))
      as [Henv _]; [reflexivity | reflexivity |].
    apply (Henv (lit "abc123")); [vm_compute; reflexivity | discriminate].
  - destruct (C4_priority_env_then_file unit sample.static_GET sample.static_HEAD
                sample.unsupported sample.version
                ∅ (sample.request "GET" "/api/encryption-key" sample.xyz_file))
      as [_ Hfile]; [reflexivity | reflexivity |].
    destruct (Hfile [(lit VITE_ENCRYPTION_KEY, Str (lit "xyz"))]) as [_ Hanswer];
      [left; reflexivity | reflexivity |].
    destruct (Hanswer (lit "xyz")) as (self' & Hrun & Hst & _ & Hbody);
      [vm_compute; reflexivity | discriminate |].
    exists self'. repeat (split; [assumption|]).
    rewrite (Hbody plain_xyz). reflexivity.
Defined.


Lemma C6_witness :
  init_encryption_key ∅ sample.malformed_file
  = (None_,
     [EnvironGet VITE_ENCRYPTION_KEY; PathExists local_config_json;
      OpenLoad local_config_json;
      Print (lit "Error loading local config: Expecting value: line 1 column 1 (char 0)")])
  /\ exists self',
       fst (sample.connect ∅ (sample.request "GET" "/api/encryption-key" sample.malformed_file))
       = Ok self' /\
       status (wfile self') = Some 404 /\
       body (wfile self') = blit "Encryption key not configured".
Proof.
  destruct (C6_config_failure_is_absent unit sample.static_GET sample.static_HEAD
              sample.unsupported sample.version
              ∅ (sample.request "GET" "/api/encryption-key" sample.malformed_file)
              (Raise (ValueError (lit "Expecting value: line 1 column 1 (char 0)")))
              (ValueError (lit "Expecting value: line 1 column 1 (char 0)")) [])
    as (Hres & _ & _ & _ & Hkey & _).
  - left. reflexivity.
  - reflexivity.
  - reflexivity.
  - split; [exact Hres|]. apply Hkey; reflexivity.
Defined.


Lemma C8_witness :
  exists self',
    fst (sample.connect ∅ (sample.request "OPTIONS" "/anything" Missing)) = Ok self' /\
    status (wfile self') = Some 200 /\
    body (wfile self') = [].
Proof.
  destruct (C8_options_200_empty unit sample.static_GET sample.static_HEAD
              sample.unsupported sample.version
              ∅ (sample.request "OPTIONS" "/anything" Missing))
    as (self' & Hrun & Hst & Hbody & _); [reflexivity|].
  exists self'. repeat split; assumption.
Defined.




(** * Further properties *)

(** ** cors_server.py: the key endpoint over all values *)

Section KeyEndpointValues.

Variable tree : Type.
Variables G H : tree -> str -> list call.
Variable E : str -> list call.
Variable server_version : string.

Local Abbreviation __init__ := (__init__ tree G H E server_version).





Lemma byte_of_N_to_N (c : N) : (c < 256)%N -> Byte.to_N (byte_of_N c) = c.
Proof.
  intros Hc. unfold byte_of_N. destruct (Byte.of_N c) as [b|] eqn:Hb.
  - apply Byte.to_of_N, Hb.
  - apply Byte.of_N_None_iff in Hb. lia.
Qed.

Lemma printable_bytes (s : str) :
  Forall ascii_printable s -> Forall printable_byte (map byte_of_N s).
Proof.
  induction 1 as [|c s Hc _ IH]; cbn [map]; constructor; [|exact IH].
  unfold printable_byte. unfold ascii_printable in Hc.
  rewrite byte_of_N_to_N by lia. exact Hc.
Qed.

Lemma flat_map_escape_printable (s : str) :
  Forall ascii_printable (flat_map json.escape_char s).
Proof.
  induction s as [|c s IH]; cbn [flat_map]; [constructor|].
  apply Forall_app; split; [apply escape_char_printable | exact IH].
Qed.

Lemma key_body_printable (v : bytes) :
  Forall printable_byte v -> Forall printable_byte (key_body v).
Proof.
  intros Hv.
  assert (Hclosed : forall l : bytes,
            forallb (fun b => (32 <=? Byte.to_N b)%N && (Byte.to_N b <=? 126)%N) l = true ->
            Forall printable_byte l).
  { intros l Hl. apply List.Forall_forall. intros b Hb.
    rewrite forallb_forall in Hl. specialize (Hl b Hb).
    apply andb_prop in Hl as [Hlo Hhi].
    apply N.leb_le in Hlo. apply N.leb_le in Hhi. split; assumption. }
  unfold key_body.
  apply Forall_app; split; [apply Hclosed; reflexivity|].
  apply Forall_app; split; [apply Hclosed; reflexivity|].
  apply Forall_app; split; [apply Hclosed; reflexivity|].
  apply Forall_app; split; [apply Hclosed; reflexivity|].
  apply Forall_app; split; [apply Hclosed; reflexivity|].
  apply Forall_app; split; [apply Hclosed; reflexivity|].
  apply Forall_app; split; [exact Hv|].
  apply Forall_app; split; apply Hclosed; reflexivity.
Qed.

(** X2: the body of a 200 answer holds printable ASCII only, whatever
    characters the key is made of. *)
Theorem key_answer_is_printable_ascii
    (environ : gmap string str) (conn : connection tree) (s : str) :
  asks_for_key conn ->
  fst (init_encryption_key environ (config conn)) = Str s ->
  s <> [] ->
  exists self',
    fst (__init__ environ conn) = Ok self' /\
    Forall printable_byte (body (wfile self')).
Proof.
  intros [Hcmd Hpath] Hkey Hs. rewrite init_unfold. cbn [fst].
  destruct (handle_key_present tree G H E (cwd conn)
              (built server_version environ conn) s)
    as (self' & Hrun & _ & _ & Hbody);
    try assumption; [split; reflexivity|].
  exists self'. split; [exact Hrun|]. rewrite Hbody.
  apply key_body_printable, printable_bytes, flat_map_escape_printable.
Qed.

Lemma map_byte_of_N_inj (l1 l2 : str) :
  Forall ascii_printable l1 -> Forall ascii_printable l2 ->
  map byte_of_N l1 = map byte_of_N l2 -> l1 = l2.
Proof.
  intros H1. revert l2. induction H1 as [|c l1 Hc _ IH]; intros l2 H2 Heq.
  - destruct l2; [reflexivity|discriminate].
  - destruct l2 as [|c2 l2]; [discriminate|].
    apply List.Forall_cons_iff in H2 as [Hc2 H2].
    cbn [map] in Heq. injection Heq as Hb Hrest.
    f_equal; [|apply IH; assumption].
    unfold ascii_printable in Hc, Hc2.
    rewrite <- (byte_of_N_to_N c), <- (byte_of_N_to_N c2) by lia.
    rewrite Hb. reflexivity.
Qed.

Lemma key_body_inj (v1 v2 : bytes) : key_body v1 = key_body v2 -> v1 = v2.
Proof.
  unfold key_body. intros Heq.
  repeat apply app_inv_head in Heq.
  rewrite !app_assoc in Heq. apply app_inv_tail in Heq. apply app_inv_tail in Heq.
  exact Heq.
Qed.

(** X3: the answer determines the key: two keys made of Unicode scalar
    values that get the same body are the same key. *)
Theorem key_answer_determines_key
    (environ1 environ2 : gmap string str) (conn1 conn2 : connection tree)
    (s1 s2 : str) :
  asks_for_key conn1 -> asks_for_key conn2 ->
  fst (init_encryption_key environ1 (config conn1)) = Str s1 ->
  fst (init_encryption_key environ2 (config conn2)) = Str s2 ->
  s1 <> [] -> s2 <> [] ->
  Forall scalar s1 -> Forall scalar s2 ->
  exists self1 self2,
    fst (__init__ environ1 conn1) = Ok self1 /\
    fst (__init__ environ2 conn2) = Ok self2 /\
    (body (wfile self1) = body (wfile self2) -> s1 = s2).
Proof.
  intros [Hc1 Hp1] [Hc2 Hp2] Hk1 Hk2 Hn1 Hn2 Hs1 Hs2. rewrite !init_unfold. cbn [fst].
  destruct (handle_key_present tree G H E (cwd conn1)
              (built server_version environ1 conn1) s1)
    as (self1 & Hrun1 & _ & _ & Hbody1);
    try assumption; [split; reflexivity|].
  destruct (handle_key_present tree G H E (cwd conn2)
              (built server_version environ2 conn2) s2)
    as (self2 & Hrun2 & _ & _ & Hbody2);
    try assumption; [split; reflexivity|].
  exists self1, self2. split; [exact Hrun1|]. split; [exact Hrun2|].
  rewrite Hbody1, Hbody2. intros Heq.
  apply key_body_inj, map_byte_of_N_inj in Heq;
    try apply flat_map_escape_printable.
  pose proof (scan_escaped s1 [] Hs1) as Hscan1.
  pose proof (scan_escaped s2 [] Hs2) as Hscan2.
  rewrite Heq in Hscan1. rewrite Hscan1 in Hscan2. congruence.
Qed.




End KeyEndpointValues.

(** ** cors_server.py: configuration file and start-up *)

Section ConfigurationFile.

Variable tree : Type.
Variables G H : tree -> str -> list call.
Variable E : str -> list call.
Variable server_version : string.

Local Abbreviation __init__ := (__init__ tree G H E server_version).
Local Abbreviation __main__ := (cors_server.__main__ tree G H E server_version).

Lemma dict_get_missing (d : list (str * value)) (k : str) :
  ~ In k (map fst d) -> dict_get d k = None_.
Proof.
  induction d as [|[k' v] d IH]; intros Hnot; [reflexivity|].
  cbn [dict_get]. destruct (decide (k' = k)) as [->|_].
  - contradiction Hnot. left. reflexivity.
  - apply IH. intros Hin. apply Hnot. right. exact Hin.
Qed.

(** X5: with the variable unset or empty, a configuration file that holds
    a JSON object without the field VITE_ENCRYPTION_KEY leaves the key
    unset without printing anything, and the key endpoint answers 404. *)
Theorem config_without_field
    (environ : gmap string str) (conn : connection tree) (d : list (str * value)) :
  env_unset environ ->
  config conn = Present (Ok (Dict d)) ->
  ~ In (lit VITE_ENCRYPTION_KEY) (map fst d) ->
  asks_for_key conn ->
  init_encryption_key environ (config conn)
  = (None_, [EnvironGet VITE_ENCRYPTION_KEY; PathExists local_config_json;
             OpenLoad local_config_json])
  /\ exists self',
       fst (__init__ environ conn) = Ok self' /\
       status (wfile self') = Some 404 /\
       body (wfile self') = blit "Encryption key not configured".
Proof.
  intros Hu Hcfg Hnot [Hcmd Hpath].
  assert (Hres : init_encryption_key environ (config conn)
                 = (None_, [EnvironGet VITE_ENCRYPTION_KEY; PathExists local_config_json;
                            OpenLoad local_config_json])).
  { rewrite Hcfg.
    rewrite (resolve_loaded environ _ (dict_get d (lit VITE_ENCRYPTION_KEY)));
      [|assumption|reflexivity].
    rewrite dict_get_missing by assumption. reflexivity. }
  split; [exact Hres|].
  rewrite init_unfold. cbn [fst].
  destruct (handle_key_absent tree G H E (cwd conn) (built server_version environ conn))
    as (self' & Hrun & Hst & _ & Hbody);
    try assumption; [split; reflexivity | cbn; rewrite Hres; reflexivity |].
  exists self'. repeat split; assumption.
Qed.

(** X6: the start-up block looks at the variable and at the existence of
    the configuration file only: it prints the warning exactly when the
    variable is unset or empty and the file is missing, prints [Using local
    config] exactly when the variable is unset or empty and the file
    exists, and never opens the file. *)
Theorem startup_messages
    (environ : gmap string str) (file : config_file) (port_free : bool)
    (conns : list (connection tree)) :
  (In (Print (lit "Warning: VITE_ENCRYPTION_KEY not set. Create local_config.json or set environment variable."))
      (fst (__main__ environ file port_free conns))
   <-> env_unset environ /\ file = Missing)
  /\ (In (Print (lit "Using local config for VITE_ENCRYPTION_KEY"))
         (fst (__main__ environ file port_free conns))
      <-> env_unset environ /\ exists load, file = Present load)
  /\ (forall name, ~ In (OpenLoad name) (fst (__main__ environ file port_free conns))).
Proof.
  unfold cors_server.__main__.
  pose proof (truthy_env_value environ) as Hunset.
  destruct (truthy (from_option Str None_ (environ !! VITE_ENCRYPTION_KEY))) eqn:Ht;
    cbn [negb].
  - assert (Hset : ~ env_unset environ) by (intros Hu; apply Hunset in Hu; discriminate).
    destruct port_free; cbn [fst In];
      (split; [|split]);
      try (split; [intros [Heq|[Heq|[]]]; discriminate Heq | intros [Hu _]; contradiction]);
      intros name [Heq|[Heq|[]]]; discriminate Heq.
  - assert (Hu : env_unset environ) by (apply Hunset; reflexivity).
    destruct file as [|load]; destruct port_free; cbn [fst In app];
      (split; [|split]).
    all: try (intros name [Heq|[Heq|[Heq|[Heq|[]]]]]; discriminate Heq).
    all: try (split; [intros _; split; [exact Hu | eauto] | intros _; tauto]).
    all: split; [intros [Heq|[Heq|[Heq|[Heq|[]]]]]; try discriminate Heq;
                 vm_compute in Heq; discriminate Heq
                | intros [_ Hf]; try discriminate Hf; destruct Hf as [? Hf]; discriminate Hf].
Qed.

End ConfigurationFile.

(** ** launch.py: class CustomHTTPRequestHandler *)

Section LauncherHandler.

Lemma launcher_run_call_heads (c : call) (self : CustomHTTPRequestHandler.handler) :
  heads (CustomHTTPRequestHandler.wfile (CustomHTTPRequestHandler.run_call c self))
  = heads (CustomHTTPRequestHandler.wfile self)
    ++ match c with
       | EndHeaders => [CustomHTTPRequestHandler._headers_buffer self ++ launcher_policy]
       | _ => []
       end.
Proof.
  destruct c; launcher_fields self; launcher_api.
  - rewrite app_nil_r. reflexivity.
  - rewrite app_nil_r. reflexivity.
  - rewrite heads_app. unfold launcher_policy. rewrite <- !app_assoc. reflexivity.
  - rewrite heads_app. reflexivity.
Qed.

Lemma launcher_run_cons (c : call) (p : list call) (self : CustomHTTPRequestHandler.handler) :
  CustomHTTPRequestHandler.run (c :: p) self
  = CustomHTTPRequestHandler.run p (CustomHTTPRequestHandler.run_call c self).
Proof. reflexivity. Qed.

Lemma launcher_run_heads (p : list call) (self : CustomHTTPRequestHandler.handler) :
  exists blocks,
    heads (CustomHTTPRequestHandler.wfile (CustomHTTPRequestHandler.run p self))
    = heads (CustomHTTPRequestHandler.wfile self) ++ blocks
    /\ Forall ends_with_launcher_policy blocks
    /\ (In EndHeaders p -> blocks <> []).
Proof.
  revert self. induction p as [|c p IH]; intros self.
  - exists []. rewrite app_nil_r. split; [reflexivity|]. split; [constructor|intros []].
  - rewrite launcher_run_cons.
    destruct (IH (CustomHTTPRequestHandler.run_call c self)) as (blocks & Heq & Hpol & Hne).
    rewrite Heq, launcher_run_call_heads, <- app_assoc.
    eexists. split; [reflexivity|]. split.
    + apply Forall_app; split; [|exact Hpol].
      destruct c; repeat constructor. eexists. reflexivity.
    + intros [->|Hin]; [discriminate|].
      specialize (Hne Hin). destruct c; cbn [app]; try exact Hne; discriminate.
Qed.

(** X7: whatever inherited method answers a request of the launcher's
    server, every header block it sends closes with the three CORS lines
    and the three no-cache lines of [end_headers], and a method that calls
    [end_headers] sends at least one block. *)
Theorem launcher_headers_on_every_response
    (p : list call) (self : CustomHTTPRequestHandler.handler) :
  CustomHTTPRequestHandler.wfile self = [] ->
  Forall ends_with_launcher_policy
    (heads (CustomHTTPRequestHandler.wfile (CustomHTTPRequestHandler.run p self)))
  /\ (In EndHeaders p ->
      heads (CustomHTTPRequestHandler.wfile (CustomHTTPRequestHandler.run p self)) <> []).
Proof.
  intros Hw. destruct (launcher_run_heads p self) as (blocks & Heq & Hpol & Hne).
  rewrite Heq, Hw. cbn [heads flat_map app]. split; [exact Hpol | exact Hne].
Qed.

End LauncherHandler.

(** ** launch.py: log_message *)

Section LogMessage.

Lemma starts_with_spec (needle hay : str) :
  text.starts_with needle hay = true <-> exists rest, hay = needle ++ rest.
Proof.
  revert hay. induction needle as [|n needle IH]; intros hay.
  - split; [intros _; exists hay; reflexivity | reflexivity].
  - destruct hay as [|h hay]; cbn [text.starts_with].
    + split; [discriminate | intros [rest Hrest]; discriminate Hrest].
    + rewrite andb_true_iff, N.eqb_eq, IH. split.
      * intros [-> [rest ->]]. exists rest. reflexivity.
      * intros [rest Hrest]. injection Hrest as -> ->. split; [reflexivity | eauto].
Qed.

Lemma contains_spec (needle hay : str) :
  text.contains needle hay = true <-> occurs_in needle hay.
Proof.
  unfold occurs_in. induction hay as [|h hay IH]; cbn [text.contains].
  - rewrite orb_false_r, starts_with_spec. split.
    + intros [rest Hrest]. exists [], rest. exact Hrest.
    + intros (before & after & Heq).
      destruct before; [|discriminate Heq]. exists after. exact Heq.
  - rewrite orb_true_iff, starts_with_spec, IH. split.
    + intros [[rest Hrest]|(before & after & Heq)].
      * exists [], rest. exact Hrest.
      * exists (h :: before), after. rewrite Heq. reflexivity.
    + intros (before & after & Heq). destruct before as [|b before].
      * left. exists after. exact Heq.
      * right. injection Heq as -> Heq. exists before, after. exact Heq.
Qed.

Lemma occurs_in_app_l (needle a b : str) : occurs_in needle a -> occurs_in needle (a ++ b).
Proof.
  intros (x & y & ->). exists x, (y ++ b). rewrite <- !app_assoc. reflexivity.
Qed.

Lemma occurs_in_app_r (needle a b : str) : occurs_in needle b -> occurs_in needle (a ++ b).
Proof.
  intros (x & y & ->). exists (a ++ x), y. rewrite <- !app_assoc. reflexivity.
Qed.

(** An occurrence cannot run over a character that the needle lacks. *)
Lemma occurs_in_split (needle a b : str) (c : N) :
  ~ In c needle ->
  occurs_in needle (a ++ c :: b) -> occurs_in needle a \/ occurs_in needle b.
Proof.
  intros Hc (x & y & Heq).
  apply app_eq_app in Heq as [l [[Ha Hrest]|[Hx Hrest]]].
  - (* a = x ++ l, needle ++ y = l ++ c :: b *)
    symmetry in Hrest. apply app_eq_app in Hrest as [m [[Hl Hy]|[Hn Hb]]].
    + (* l = needle ++ m *) left. exists x, m. rewrite Ha, Hl. reflexivity.
    + (* needle = l ++ m, c :: b = m ++ y *)
      destruct m as [|c' m].
      * left. exists x, []. rewrite Ha, Hn, !app_nil_r. reflexivity.
      * injection Hb as -> _. contradiction Hc. rewrite Hn.
        apply in_or_app. right. left. reflexivity.
  - (* x = a ++ l, c :: b = l ++ needle ++ y *)
    destruct l as [|c' l].
    + cbn [app] in Hrest. destruct needle as [|n needle].
      * left. exists a, []. rewrite app_nil_r. reflexivity.
      * injection Hrest as -> _. contradiction Hc. left. reflexivity.
    + injection Hrest as _ ->. right. exists l, y. reflexivity.
Qed.

Lemma occurs_in_head (c : N) (needle hay : str) :
  occurs_in (c :: needle) hay -> In c hay.
Proof. intros (x & y & ->). apply in_or_app. right. left. reflexivity. Qed.

Lemma uint_numeral (d : Decimal.uint) :
  Forall numeral_char (lit (NilEmpty.string_of_uint d)).
Proof.
  assert (Hcons : forall a t, lit (String a t) = N_of_ascii a :: lit t) by reflexivity.
  induction d; cbn [NilEmpty.string_of_uint]; [constructor|..];
    rewrite Hcons; (constructor; [right; vm_compute; split; discriminate | exact IHd]).
Qed.

Lemma int_repr_numeral (z : Z) : Forall numeral_char (json.int_repr z).
Proof.
  unfold json.int_repr, NilZero.string_of_int.
  assert (Huint : forall d, Forall numeral_char (lit (NilZero.string_of_uint d))).
  { intros d. unfold NilZero.string_of_uint. destruct d; try apply uint_numeral.
    change (Forall numeral_char [48%N]).
    constructor; [right; vm_compute; split; discriminate | constructor]. }
  destruct (Z.to_int z) as [d|d]; [apply Huint|].
  change (Forall numeral_char (45%N :: lit (NilZero.string_of_uint d))).
  constructor; [left; reflexivity | apply Huint].
Qed.

(** Nothing of [GET /] occurs after the request line of a logged request. *)
Lemma no_GET_after_requestline (code : Z) :
  ~ occurs_in (lit "GET /") (lit " " ++ json.int_repr code ++ lit " -").
Proof.
  intros Hocc. apply (occurs_in_head 71%N) in Hocc.
  apply in_app_or in Hocc as [Hin|Hin]; [vm_compute in Hin; intuition discriminate|].
  apply in_app_or in Hin as [Hin|Hin]; [|vm_compute in Hin; intuition discriminate].
  pose proof (int_repr_numeral code) as Hnum.
  rewrite List.Forall_forall in Hnum. destruct (Hnum _ Hin) as [Heq|Hrange].
  - discriminate Heq.
  - lia.
Qed.

Lemma message_occurs_GET (requestline : str) (code : Z) :
  occurs_in (lit "GET /")
    (CustomHTTPRequestHandler.log_request_message requestline code)
  <-> occurs_in (lit "GET /") requestline.
Proof.
  unfold CustomHTTPRequestHandler.log_request_message. split.
  - intros Hocc.
    apply (occurs_in_split _ [] _ dquote) in Hocc;
      [|vm_compute; intuition discriminate].
    destruct Hocc as [(x & y & Heq)|Hocc].
    { destruct x; discriminate Heq. }
    apply occurs_in_split in Hocc; [|vm_compute; intuition discriminate].
    destruct Hocc as [Hocc|Hocc]; [exact Hocc|].
    contradiction (no_GET_after_requestline code).
  - intros Hocc. apply (occurs_in_app_r _ [dquote]), occurs_in_app_l, Hocc.
Qed.

(** Where [200] or [304] can occur in the text of a logged request: in the
    request line or in the status code. *)
Lemma message_occurs_digits (needle requestline : str) (code : Z) :
  needle = lit "200" \/ needle = lit "304" ->
  occurs_in needle (CustomHTTPRequestHandler.log_request_message requestline code)
  <-> occurs_in needle requestline \/ occurs_in needle (json.int_repr code).
Proof.
  intros Hneedle. unfold CustomHTTPRequestHandler.log_request_message. split.
  - intros Hocc.
    apply (occurs_in_split _ [] _ dquote) in Hocc;
      [|destruct Hneedle as [->| ->]; vm_compute; intuition discriminate].
    destruct Hocc as [(x & y & Heq)|Hocc].
    { destruct x; destruct Hneedle as [->| ->]; discriminate Heq. }
    apply occurs_in_split in Hocc;
      [|destruct Hneedle as [->| ->]; vm_compute; intuition discriminate].
    destruct Hocc as [Hocc|Hocc]; [left; exact Hocc|]. right.
    apply (occurs_in_split _ [] _ 32%N) in Hocc;
      [|destruct Hneedle as [->| ->]; vm_compute; intuition discriminate].
    destruct Hocc as [(x & y & Heq)|Hocc].
    { destruct x; destruct Hneedle as [->| ->]; discriminate Heq. }
    apply (occurs_in_split _ _ [45%N] 32%N) in Hocc;
      [|destruct Hneedle as [->| ->]; vm_compute; intuition discriminate].
    destruct Hocc as [Hocc|(x & y & Heq)]; [exact Hocc|].
    destruct x as [|? [|? ?]]; destruct Hneedle as [->| ->]; discriminate Heq.
  - intros [Hocc|Hocc].
    + apply (occurs_in_app_r _ [dquote]), occurs_in_app_l, Hocc.
    + apply (occurs_in_app_r _ [dquote]), occurs_in_app_r, (occurs_in_app_r _ [dquote]),
        (occurs_in_app_r _ (lit " ")), occurs_in_app_l, Hocc.
Qed.

End LogMessage.

Section LogRequest.

(** X8: of the lines that [log_request] formats, [log_message] drops exactly
    those whose request line contains [GET /] and whose request line or
    status code contains [200] or [304]; every other line is handed on
    unchanged.  So a successful GET is not logged, and neither is a failed
    GET whose path happens to contain [200] or [304]. *)
Theorem log_request_filter (requestline : str) (code : Z) :
  (CustomHTTPRequestHandler.log_request requestline code = None
   <-> occurs_in (lit "GET /") requestline
       /\ (occurs_in (lit "200") requestline \/ occurs_in (lit "304") requestline
           \/ occurs_in (lit "200") (json.int_repr code)
           \/ occurs_in (lit "304") (json.int_repr code)))
  /\ (CustomHTTPRequestHandler.log_request requestline code <> None ->
      CustomHTTPRequestHandler.log_request requestline code
      = Some (CustomHTTPRequestHandler.log_request_message requestline code)).
Proof.
  unfold CustomHTTPRequestHandler.log_request, CustomHTTPRequestHandler.log_message.
  cbn [andb].
  set (message := CustomHTTPRequestHandler.log_request_message requestline code).
  pose proof (contains_spec (lit "GET /") message) as HG.
  pose proof (contains_spec (lit "200") message) as H2.
  pose proof (contains_spec (lit "304") message) as H3.
  unfold message in HG, H2, H3.
  rewrite message_occurs_GET in HG.
  rewrite message_occurs_digits in H2 by (left; reflexivity).
  rewrite message_occurs_digits in H3 by (right; reflexivity).
  fold message in HG, H2, H3.
  destruct (text.contains (lit "GET /") message);
    destruct (text.contains (lit "200") message);
    destruct (text.contains (lit "304") message); cbn [andb orb];
    (split; [split; [intros Hdrop | intros [Hg Hd]] | intros Hkept]);
    try reflexivity; try discriminate; try contradiction.
  all: try (split; [tauto | tauto]).
  all: exfalso.
  all: try (assert (Hf : false = true) by tauto; discriminate Hf).
Qed.

End LogRequest.

(** ** launch.py: find_free_port, check_files and main *)

Section PortSearch.

Variable refused : Z -> bool.

Lemma all_refused_step (start stop : Z) :
  0 <= start <= 65535 -> refused start = true ->
  all_refused refused (start + 1) stop -> all_refused refused start stop.
Proof.
  intros Hv Hr Hall q Hq. destruct (Z.eq_dec q start) as [->|Hne].
  - split; assumption.
  - apply Hall. lia.
Qed.

(** The loop over [range(start, stop)], whatever the bounds. *)
Lemma loop_outcomes (k : nat) : forall start stop : Z,
  Z.to_nat (stop - start) = k ->
  match launch.find_free_port_loop refused (launch.range start stop) with
  | Some (Ok p) =>
      start <= p < stop /\ 0 <= p <= 65535 /\ refused p = false
      /\ all_refused refused start p
  | Some (Raise e) =>
      e = OverflowError (lit "bind(): port must be 0-65535.")
      /\ exists q, start <= q < stop /\ (q < 0 \/ 65535 < q)
                   /\ all_refused refused start q
  | None => all_refused refused start stop
  end.
Proof.
  induction k as [|k IH]; intros start stop Hk.
  - rewrite range_nil by lia. cbn. intros q Hq. lia.
  - rewrite range_cons by lia. cbn [launch.find_free_port_loop].
    unfold launch.sock_bind.
    destruct (Z.ltb_spec start 0) as [Hneg|Hpos]; cbn [orb].
    { cbn [is_OSError]. split; [reflexivity|].
      exists start. split; [lia|]. split; [left; exact Hneg|]. intros q Hq. lia. }
    destruct (Z.ltb_spec 65535 start) as [Hbig|Hsmall].
    { cbn [is_OSError]. split; [reflexivity|].
      exists start. split; [lia|]. split; [right; exact Hbig|]. intros q Hq. lia. }
    destruct (refused start) eqn:Hr.
    + cbn [is_OSError]. specialize (IH (start + 1) stop ltac:(lia)).
      destruct (launch.find_free_port_loop refused (launch.range (start + 1) stop))
        as [[p|e]|].
      * destruct IH as (Hp & Hv & Hf & Hall).
        split; [lia|]. split; [exact Hv|]. split; [exact Hf|].
        apply all_refused_step; try assumption. lia.
      * destruct IH as (He & q & Hq & Hbad & Hall). split; [exact He|].
        exists q. split; [lia|]. split; [exact Hbad|].
        apply all_refused_step; try assumption. lia.
      * apply all_refused_step; try assumption. lia.
    + split; [lia|]. split; [lia|]. split; [exact Hr|]. intros q Hq. lia.
Qed.

(** X9: the three ways [find_free_port] can end, for any arguments: it
    returns the first port of the range that the system does not refuse,
    every port before it being a refused port number; or it raises
    [RuntimeError] because every port of the range is a refused port number
    (in particular when [max_attempts] is not positive); or it raises the
    [OverflowError] of [bind] because it reached a number outside 0..65535
    after refused ports only. *)
Theorem find_free_port_outcomes (start_port max_attempts : Z) :
  match launch.find_free_port refused start_port max_attempts with
  | Ok p =>
      start_port <= p < start_port + max_attempts /\ 0 <= p <= 65535
      /\ refused p = false /\ all_refused refused start_port p
  | Raise (RuntimeError msg) =>
      all_refused refused start_port (start_port + max_attempts)
      /\ msg = lit "Could not find a free port between " ++ json.int_repr start_port
               ++ lit " and " ++ json.int_repr (start_port + max_attempts)
  | Raise (OverflowError _) =>
      exists q, start_port <= q < start_port + max_attempts
                /\ (q < 0 \/ 65535 < q) /\ all_refused refused start_port q
  | Raise _ => False
  end.
Proof.
  unfold launch.find_free_port.
  pose proof (loop_outcomes _ start_port (start_port + max_attempts) eq_refl) as Hloop.
  destruct (launch.find_free_port_loop refused
              (launch.range start_port (start_port + max_attempts))) as [[p|e]|].
  - exact Hloop.
  - destruct Hloop as [-> Hq]. exact Hq.
  - split; [exact Hloop | reflexivity].
Qed.

Lemma range_app (a b c : Z) :
  a <= b <= c -> launch.range a c = launch.range a b ++ launch.range b c.
Proof.
  intros Hab. remember (Z.to_nat (b - a)) as k eqn:Hk.
  revert a Hab Hk. induction k as [|k IH]; intros a Hab Hk.
  - assert (a = b) by lia. subst a. rewrite (range_nil b b) by lia. reflexivity.
  - rewrite (range_cons a c), (range_cons a b) by lia.
    cbn [app]. f_equal. apply IH; lia.
Qed.

Lemma loop_app (l1 l2 : list Z) :
  launch.find_free_port_loop refused (l1 ++ l2)
  = match launch.find_free_port_loop refused l1 with
    | Some r => Some r
    | None => launch.find_free_port_loop refused l2
    end.
Proof.
  induction l1 as [|port l1 IH]; [reflexivity|].
  cbn [app launch.find_free_port_loop].
  destruct (launch.sock_bind refused port) as [[]|e]; [reflexivity|].
  destruct (is_OSError e); [exact IH | reflexivity].
Qed.

(** X10: allowing more attempts changes nothing once the search has ended
    otherwise than by exhausting its range: the same port is returned, or
    the same [OverflowError] raised. *)
Theorem find_free_port_more_attempts (start_port max_attempts more : Z) :
  max_attempts <= more ->
  (forall msg, launch.find_free_port refused start_port max_attempts
               <> Raise (RuntimeError msg)) ->
  launch.find_free_port refused start_port more
  = launch.find_free_port refused start_port max_attempts.
Proof.
  intros Hle Hnot. unfold launch.find_free_port in *.
  destruct (Z.le_gt_cases max_attempts 0) as [Hempty|Hpos].
  { rewrite (range_nil start_port (start_port + max_attempts)) in Hnot by lia.
    cbn in Hnot. contradiction (Hnot _ eq_refl). }
  rewrite (range_app start_port (start_port + max_attempts) (start_port + more)) by lia.
  rewrite loop_app.
  destruct (launch.find_free_port_loop refused
              (launch.range start_port (start_port + max_attempts))) as [r|].
  - reflexivity.
  - contradiction (Hnot _ eq_refl).
Qed.

End PortSearch.

Section Launcher.

Lemma lit_inj (s1 s2 : string) : lit s1 = lit s2 -> s1 = s2.
Proof.
  revert s2. induction s1 as [|a s1 IH]; intros [|b s2] Heq;
    try reflexivity; try discriminate Heq.
  change (N_of_ascii a :: lit s1 = N_of_ascii b :: lit s2) in Heq.
  injection Heq as Hab Hrest. f_equal; [|apply IH, Hrest].
  rewrite <- (ascii_N_embedding a), <- (ascii_N_embedding b), Hab. reflexivity.
Qed.

Lemma filter_nil_forallb (e : string -> bool) (l : list string) :
  List.filter (fun f => negb (e f)) l = [] <-> forallb e l = true.
Proof.
  induction l as [|f l IH]; cbn [List.filter forallb]; [tauto|].
  destruct (e f); cbn [negb andb]; [exact IH|].
  split; discriminate.
Qed.

(** X11: [check_files] returns [True] exactly when every required file
    exists, and its report names each missing required file and no other
    file. *)
Theorem check_files_reports_missing (exists_ : string -> bool) :
  snd (launch.check_files exists_) = forallb exists_ launch.required_files
  /\ forall file,
       In (lit "   - " ++ lit file) (fst (launch.check_files exists_))
       <-> In file launch.required_files /\ exists_ file = false.
Proof.
  unfold launch.check_files.
  pose proof (filter_nil_forallb exists_ launch.required_files) as Hnil.
  pose proof (fun f => filter_In (fun f => negb (exists_ f)) f launch.required_files)
    as Hin.
  destruct (List.filter (fun file_path => negb (exists_ file_path)) launch.required_files)
    as [|m ms] eqn:Hmissing; cbn [fst snd].
  - split; [symmetry; apply Hnil; reflexivity|].
    intros file. split.
    + intros [Heq|[]]. vm_compute in Heq. discriminate Heq.
    + intros [Hreq Hf]. exfalso.
      apply (proj2 (Hin file)). split; [exact Hreq | rewrite Hf; reflexivity].
  - split.
    + destruct (forallb exists_ launch.required_files); [|reflexivity].
      destruct Hnil as [_ Hnil]. discriminate (Hnil eq_refl).
    + intros file. rewrite <- (negb_true_iff (exists_ file)), <- Hin. split.
      * intros [Heq|Hline]; [vm_compute in Heq; discriminate Heq|].
        apply in_map_iff in Hline as (f & Heq & Hf).
        apply app_inv_head, lit_inj in Heq. subst f. exact Hf.
      * intros Hf. right. apply in_map_iff. exists file. split; [reflexivity|exact Hf].
Qed.

(** X12: [main] ends in one of three ways and never with an uncaught
    exception: exit code 1 when a required file is missing, whatever the
    state of the ports; the hand-over of the smallest port of 8000..8099
    that is not refused; or exit code 1 when all these ports are refused. *)
Theorem main_outcomes (exists_ : string -> bool) (refused : Z -> bool) :
  (forallb exists_ launch.required_files = false ->
     snd (launch.main exists_ refused) = launch.Exit 1
     /\ forall refused', launch.main exists_ refused' = launch.main exists_ refused)
  /\ (forallb exists_ launch.required_files = true ->
      (exists port,
         snd (launch.main exists_ refused) = launch.StartServer port /\
         8000 <= port < 8100 /\ refused port = false /\
         forall q, 8000 <= q < port -> refused q = true)
      \/ (snd (launch.main exists_ refused) = launch.Exit 1 /\
          forall q, 8000 <= q < 8100 -> refused q = true)).
Proof.
  unfold launch.main.
  pose proof (filter_nil_forallb exists_ launch.required_files) as Hnil.
  unfold launch.check_files.
  destruct (List.filter (fun file_path => negb (exists_ file_path)) launch.required_files)
    as [|m ms] eqn:Hmissing.
  - split.
    + intros Hfalse. destruct Hnil as [Hnil _]. rewrite Hnil in Hfalse by reflexivity.
      discriminate Hfalse.
    + intros _. cbn [negb]. unfold launch.find_free_port.
      destruct (loop_valid_range refused _ 8000 (8000 + 100) eq_refl)
        as [(p & Hp & Hr & Hf & Hsm)|[Hnone Hall]]; try lia.
      * left. exists p. rewrite Hp. cbn [snd]. repeat split; try lia; assumption.
      * right. rewrite Hnone. cbn [snd]. split; [reflexivity | exact Hall].
  - split.
    + intros _. cbn [negb snd]. split; reflexivity.
    + intros Htrue. destruct Hnil as [_ Hnil]. discriminate (Hnil Htrue).
Qed.

End Launcher.

(** ** What the [end_headers] overrides leave untouched *)

Section InheritedResponses.

Variable tree : Type.
Variables G H : tree -> str -> list call.
Variable E : str -> list call.
Variable server_version : string.

Local Abbreviation __init__ := (__init__ tree G H E server_version).

Lemma run_app (p q : list call) (self : handler) :
  run (p ++ q) self = run q (run p self).
Proof. unfold run. apply fold_left_app. Qed.

Lemma run_header_calls (p : list call) (self : handler) :
  Forall header_call p ->
  run p self
  = with_buffer (_headers_buffer self
                 ++ flat_map (sent_lines (version_string self) (date_time_string self)) p)
      self.
Proof.
  intros Hp. revert self. induction Hp as [|c p Hc _ IH]; intros self.
  - cbn [run fold_left flat_map]. rewrite app_nil_r. fields self. reflexivity.
  - cbn [run fold_left]. fold (run p (run_call c self)). rewrite IH.
    destruct c; try contradiction; fields self; unfold_api; cbv [run_call]; unfold_api;
      cbn [flat_map sent_lines]; rewrite <- !app_assoc; reflexivity.
Qed.

Lemma run_write_calls (p : list call) (self : handler) :
  Forall write_call p ->
  run p self = with_wfile (wfile self ++ written_bodies p) self.
Proof.
  intros Hp. revert self. induction Hp as [|c p Hc _ IH]; intros self.
  - cbn [run fold_left]. unfold written_bodies. cbn [flat_map].
    rewrite app_nil_r. fields self. reflexivity.
  - cbn [run fold_left]. fold (run p (run_call c self)). rewrite IH.
    destruct c; try contradiction. fields self. unfold_api. cbv [run_call]. unfold_api.
    unfold written_bodies. cbn [flat_map]. rewrite <- !app_assoc. reflexivity.
Qed.

(** X13: when the inherited [do_GET] answers with a status line and
    headers, one [end_headers] and then the body, the response on the wire
    is its own header lines in order, followed by the five policy lines,
    and its own body writes unchanged: the override adds the policy and
    touches nothing else. *)
Theorem inherited_GET_passes_through
    (environ : gmap string str) (conn : connection tree) (pre post : list call) :
  request_command conn = lit "GET" ->
  request_path conn <> key_path ->
  G (cwd conn) (request_path conn) = pre ++ EndHeaders :: post ->
  Forall header_call pre ->
  Forall write_call post ->
  exists self',
    fst (__init__ environ conn) = Ok self' /\
    wfile self'
    = Head (flat_map (sent_lines server_version (now conn)) pre ++ cors_policy)
      :: written_bodies post.
Proof.
  intros Hcmd Hpath Hprog Hpre Hpost. rewrite init_unfold. cbn [fst].
  rewrite handle_GET by assumption. rewrite do_GET_other by assumption.
  eexists. split; [reflexivity|].
  change (path (built server_version environ conn)) with (request_path conn).
  rewrite Hprog, run_app, (run_header_calls pre) by assumption.
  change (EndHeaders :: post) with ([EndHeaders] ++ post).
  rewrite run_app, (run_write_calls post) by assumption.
  cbn [run fold_left run_call]. unfold built. unfold_api.
  unfold cors_policy. rewrite <- !app_assoc. reflexivity.
Qed.

End InheritedResponses.

Section LauncherResponses.

Lemma launcher_run_app (p q : list call) (self : CustomHTTPRequestHandler.handler) :
  CustomHTTPRequestHandler.run (p ++ q) self
  = CustomHTTPRequestHandler.run q (CustomHTTPRequestHandler.run p self).
Proof. unfold CustomHTTPRequestHandler.run. apply fold_left_app. Qed.

Lemma launcher_run_header_calls (p : list call) (self : CustomHTTPRequestHandler.handler) :
  Forall header_call p ->
  CustomHTTPRequestHandler.run p self
  = {| CustomHTTPRequestHandler.version_string :=
         CustomHTTPRequestHandler.version_string self;
       CustomHTTPRequestHandler.date_time_string :=
         CustomHTTPRequestHandler.date_time_string self;
       CustomHTTPRequestHandler._headers_buffer :=
         CustomHTTPRequestHandler._headers_buffer self
         ++ flat_map (sent_lines (CustomHTTPRequestHandler.version_string self)
                        (CustomHTTPRequestHandler.date_time_string self)) p;
       CustomHTTPRequestHandler.wfile := CustomHTTPRequestHandler.wfile self |}.
Proof.
  intros Hp. revert self. induction Hp as [|c p Hc _ IH]; intros self.
  - cbn [CustomHTTPRequestHandler.run fold_left flat_map]. rewrite app_nil_r.
    launcher_fields self. reflexivity.
  - rewrite launcher_run_cons, IH.
    destruct c; try contradiction; launcher_fields self; launcher_api;
      cbn [flat_map sent_lines]; rewrite <- !app_assoc; reflexivity.
Qed.

Lemma launcher_run_write_calls (p : list call) (self : CustomHTTPRequestHandler.handler) :
  Forall write_call p ->
  CustomHTTPRequestHandler.run p self
  = {| CustomHTTPRequestHandler.version_string :=
         CustomHTTPRequestHandler.version_string self;
       CustomHTTPRequestHandler.date_time_string :=
         CustomHTTPRequestHandler.date_time_string self;
       CustomHTTPRequestHandler._headers_buffer :=
         CustomHTTPRequestHandler._headers_buffer self;
       CustomHTTPRequestHandler.wfile :=
         CustomHTTPRequestHandler.wfile self ++ written_bodies p |}.
Proof.
  intros Hp. revert self. induction Hp as [|c p Hc _ IH]; intros self.
  - cbn [CustomHTTPRequestHandler.run fold_left]. unfold written_bodies. cbn [flat_map].
    rewrite app_nil_r. launcher_fields self. reflexivity.
  - rewrite launcher_run_cons, IH.
    destruct c; try contradiction. launcher_fields self. launcher_api.
    unfold written_bodies. cbn [flat_map]. rewrite <- !app_assoc. reflexivity.
Qed.

(** X14: a response of the launcher's server that an inherited method
    writes as a status line and headers, one [end_headers] and then the
    body, reaches the wire as its own header lines in order, followed by
    the six lines of the override, and its own body writes unchanged. *)
Theorem launcher_response_passes_through
    (pre post : list call) (self : CustomHTTPRequestHandler.handler) :
  CustomHTTPRequestHandler._headers_buffer self = [] ->
  CustomHTTPRequestHandler.wfile self = [] ->
  Forall header_call pre ->
  Forall write_call post ->
  CustomHTTPRequestHandler.wfile
    (CustomHTTPRequestHandler.run (pre ++ EndHeaders :: post) self)
  = Head (flat_map (sent_lines (CustomHTTPRequestHandler.version_string self)
                      (CustomHTTPRequestHandler.date_time_string self)) pre
          ++ launcher_policy)
    :: written_bodies post.
Proof.
  intros Hbuf Hw Hpre Hpost.
  rewrite launcher_run_app, (launcher_run_header_calls pre) by assumption.
  change (EndHeaders :: post) with ([EndHeaders] ++ post).
  rewrite launcher_run_app, (launcher_run_write_calls post) by assumption.
  launcher_fields self. subst.
  cbn [CustomHTTPRequestHandler.run fold_left]. launcher_api.
  unfold launcher_policy. rewrite <- !app_assoc. reflexivity.
Qed.

End LauncherResponses.

(** ** Instances of the further properties *)


Lemma key_answer_is_printable_ascii_witness :
  exists self',
    fst (sample.connect sample.env_abc123
           (sample.request "GET" "/api/encryption-key" Missing)) = Ok self' /\
    Forall printable_byte (body (wfile self')).
Proof.
  apply (key_answer_is_printable_ascii unit sample.static_GET sample.static_HEAD
           sample.unsupported sample.version sample.env_abc123
           (sample.request "GET" "/api/encryption-key" Missing) (lit "abc123")).
  - split; reflexivity.
  - vm_compute. reflexivity.
  - discriminate.
Defined.

Lemma scalar_abc123 : Forall scalar (lit "abc123").
Proof. repeat constructor; left; vm_compute; reflexivity. Qed.

Lemma scalar_xyz : Forall scalar (lit "xyz").
Proof. repeat constructor; left; vm_compute; reflexivity. Qed.

Lemma key_answer_determines_key_witness :
  exists self1 self2,
    fst (sample.connect sample.env_abc123
           (sample.request "GET" "/api/encryption-key" Missing)) = Ok self1 /\
    fst (sample.connect examples.env_xyz
           (sample.request "GET" "/api/encryption-key" Missing)) = Ok self2 /\
    body (wfile self1) <> body (wfile self2).
Proof.
  destruct (key_answer_determines_key unit sample.static_GET sample.static_HEAD
              sample.unsupported sample.version sample.env_abc123 examples.env_xyz
              (sample.request "GET" "/api/encryption-key" Missing)
              (sample.request "GET" "/api/encryption-key" Missing)
              (lit "abc123") (lit "xyz"))
    as (self1 & self2 & Hrun1 & Hrun2 & Hsame).
  - split; reflexivity.
  - split; reflexivity.
  - vm_compute. reflexivity.
  - vm_compute. reflexivity.
  - discriminate.
  - discriminate.
  - exact scalar_abc123.
  - exact scalar_xyz.
  - exists self1, self2. split; [exact Hrun1|]. split; [exact Hrun2|].
    intros Heq. specialize (Hsame Heq). discriminate Hsame.
Defined.


Lemma config_without_field_witness :
  exists self',
    fst (sample.connect ∅
           (sample.request "GET" "/api/encryption-key" examples.other_field_file))
    = Ok self' /\
    status (wfile self') = Some 404 /\
    body (wfile self') = blit "Encryption key not configured".
Proof.
  destruct (config_without_field unit sample.static_GET sample.static_HEAD
              sample.unsupported sample.version ∅
              (sample.request "GET" "/api/encryption-key" examples.other_field_file)
              [(lit "OTHER", Str (lit "x"))])
    as [_ Hanswer].
  - left. reflexivity.
  - reflexivity.
  - intros [Heq|[]]. vm_compute in Heq. discriminate Heq.
  - split; reflexivity.
  - exact Hanswer.
Defined.

Lemma startup_messages_witness :
  In (Print (lit "Using local config for VITE_ENCRYPTION_KEY"))
    (fst (cors_server.__main__ unit sample.static_GET sample.static_HEAD
            sample.unsupported sample.version ∅ sample.malformed_file true [])).
Proof.
  destruct (startup_messages unit sample.static_GET sample.static_HEAD
              sample.unsupported sample.version ∅ sample.malformed_file true [])
    as (_ & Husing & _).
  apply Husing. split; [left; reflexivity|]. eexists. reflexivity.
Defined.

Lemma launcher_headers_on_every_response_witness :
  heads (CustomHTTPRequestHandler.wfile
           (CustomHTTPRequestHandler.run (sample.static_GET tt (lit "/missing"))
              examples.launcher_handler)) <> [].
Proof.
  destruct (launcher_headers_on_every_response (sample.static_GET tt (lit "/missing"))
              examples.launcher_handler) as [_ Hsent].
  - reflexivity.
  - apply Hsent. right. right. right. left. reflexivity.
Defined.

Lemma log_request_filter_witness :
  CustomHTTPRequestHandler.log_request (lit "GET /img200.png HTTP/1.1") 404 = None.
Proof.
  destruct (log_request_filter (lit "GET /img200.png HTTP/1.1") 404) as [[_ Hdrop] _].
  apply Hdrop. split.
  - exists [], (lit "img200.png HTTP/1.1"). reflexivity.
  - left. exists (lit "GET /img"), (lit ".png HTTP/1.1"). reflexivity.
Defined.

Lemma find_free_port_more_attempts_witness :
  launch.find_free_port examples.first_three_refused 8000 100
  = launch.find_free_port examples.first_three_refused 8000 10.
Proof.
  apply find_free_port_more_attempts.
  - lia.
  - intros msg. vm_compute. discriminate.
Defined.

Lemma main_outcomes_witness :
  snd (launch.main examples.nothing_exists examples.first_three_refused) = launch.Exit 1.
Proof.
  destruct (main_outcomes examples.nothing_exists examples.first_three_refused)
    as [Hmissing _].
  apply Hmissing. reflexivity.
Defined.

Lemma inherited_GET_passes_through_witness :
  exists self',
    fst (sample.connect sample.env_abc123 (sample.request "GET" "/missing" Missing))
    = Ok self' /\
    wfile self'
    = Head (flat_map (sent_lines sample.version "Tue, 03 Nov 2026 12:00:00 GMT")
              examples.error_headers ++ cors_policy)
      :: written_bodies examples.error_body.
Proof.
  apply (inherited_GET_passes_through unit sample.static_GET sample.static_HEAD
           sample.unsupported sample.version sample.env_abc123
           (sample.request "GET" "/missing" Missing)
           examples.error_headers examples.error_body).
  - reflexivity.
  - discriminate.
  - reflexivity.
  - repeat constructor.
  - repeat constructor.
Defined.

Lemma launcher_response_passes_through_witness :
  CustomHTTPRequestHandler.wfile
    (CustomHTTPRequestHandler.run (examples.error_headers ++ EndHeaders :: examples.error_body)
       examples.launcher_handler)
  = Head (flat_map (sent_lines sample.version "Tue, 03 Nov 2026 12:00:00 GMT")
            examples.error_headers ++ launcher_policy)
    :: written_bodies examples.error_body.
Proof.
  apply (launcher_response_passes_through examples.error_headers examples.error_body
           examples.launcher_handler).
  - reflexivity.
  - reflexivity.
  - repeat constructor.
  - repeat constructor.
Defined.

Lemma find_free_port_outcomes_witness :
  all_refused sample.every_port_refused 8000 (8000 + 3).
Proof.
  pose proof (find_free_port_outcomes sample.every_port_refused 8000 3) as Hout.
  destruct (launch.find_free_port sample.every_port_refused 8000 3) as [p|e] eqn:Hfind;
    vm_compute in Hfind; [discriminate Hfind|].
  injection Hfind as <-. exact (proj1 Hout).
Defined.

Lemma check_files_reports_missing_witness :
  In (lit "   - " ++ lit "assets/YBot.fbx") (fst (launch.check_files examples.nothing_exists)).
Proof.
  destruct (check_files_reports_missing examples.nothing_exists) as [_ Hreport].
  apply Hreport. split; [right; left; reflexivity | reflexivity].
Defined.
